(** * runv: the template VM factory and the daemon's factory selection

  A shallow embedding of [factory/template/template.go] (the template
  factory: [New], [NewFromExisted], [Config], [GetBaseVm],
  [CloseFactory]) and of the start-up part of the containerd command's
  [Action] (lines 60-116: argument checks, template descriptor
  validation, driver probe, factory selection).

  Go packages are rendered as modules.  Code that has effects is written
  in a state monad over a [World]: the filesystem, the hypervisor, the
  position in the process's random source, the glog output and the list
  of calls made to collaborating packages. *)

From stdpp Require Import base gmap strings list.
From Stdlib Require Import ZArith Ascii.

Local Open Scope Z_scope.

(** ** Go values *)

(** A Go [error] value, identified with its message; a nil error is the
  [Ok] side of [result]. *)
Definition error : Type := string.

(** A Go [(value, error)] pair of a function that returns either one. *)
Inductive result (A : Type) : Type :=
| Ok (a : A)
| Err (e : error).
Arguments Ok {A} a.
Arguments Err {A} e.

Definition is_Ok {A : Type} (r : result A) : bool :=
  match r with Ok _ => true | Err _ => false end.

(** ** The hypervisor package: boot configurations and machines *)
Module hypervisor.

(** Modelled from the spec: the type [hypervisor.BootConfig], whose
    declaration is not among the sources.  The spec lists kernel path,
    initrd path, driver name, CPU count, memory size and optional BIOS
    and CBFS paths. *)
Record BootConfig : Type := {
  CPU : Z;
  Memory : Z;
  Kernel : string;
  Initrd : string;
  Driver : string;
  Bios : string;
  Cbfs : string
}.

(** Modelled from the spec: the type [hypervisor.Vm], one running guest.
    A machine is known by its identifier and by the boot configuration it
    was instantiated from. *)
Record Vm : Type := {
  Id : string;
  Boot : BootConfig
}.

End hypervisor.

(** ** The template package: the persisted template descriptor *)
Module template.

(** Modelled from the spec: the type [template.TemplateVmConfig], whose
    declaration is not among the sources.  [Driver], [Kernel] and [Initrd]
    are the fields the daemon reads; root path, name and sizing are the
    others the spec lists for the persisted descriptor. *)
Record TemplateVmConfig : Type := {
  StatePath : string;
  Name : string;
  Driver : string;
  Cpu : Z;
  Memory : Z;
  Kernel : string;
  Initrd : string
}.

End template.

(** ** The world outside the program *)

(** [errno] values, other than [ENOENT], that [stat] can fail with. *)
Inductive Errno : Type := EACCES | ENOTDIR | ENAMETOOLONG | ELOOP | EIO.

(** The [(FileInfo, error)] pair of [os.Stat], without the file's details,
    which [New] discards: the file is there, or it is not ([ENOENT]), or
    the call failed for another reason. *)
Inductive StatResult : Type :=
| StatOk
| StatNotExist
| StatFault (e : Errno).

(** The severity glog files a line under. *)
Inductive Severity : Type := INFO | ERROR.

(** Calls made to the collaborating packages, in the order they happen. *)
Inductive Call : Type :=
| CallRandRead (n : nat)
| CallStat (path : string)
| CallCreateTemplateVM (statePath name : string) (cpu mem : Z)
                     (kernel initrd bios cbfs : string)
| CallClone (s : template.TemplateVmConfig) (vmName : string)
| CallBoot (b : hypervisor.BootConfig)
| CallDestroy (s : template.TemplateVmConfig)
| CallFlagParse (arguments : list string)
| CallOpen (path : string)
| CallClose (path : string)
| CallProbe (driver : string).

Section World.

(** The hypervisor's own state is opaque to the factory. *)
Context {Hv : Type}.

(** What lives outside the process: the paths that exist in the
    filesystem, and the hypervisor. *)
Record Sys : Type := {
  files : gset string;
  hv : Hv
}.

Record World : Type := {
  sys : Sys;
  rand_off : nat;            (* bytes drawn from the random source so far *)
  glog : list (Severity * string);   (* lines logged, oldest first *)
  calls : list Call          (* collaborator calls, oldest first *)
}.

(** The collaborators the factory reaches and whose code is elsewhere:
    their behaviour is arbitrary. *)
Record Env : Type := {
  (* byte [i] of the process's random source *)
  rand_byte : nat -> N;
  (* a reason, other than absence, for which [stat] of a path fails *)
  stat_fault : string -> option Errno;
  (* template.CreateTemplateVM(statePath, name, cpu, mem, kernel, initrd, bios, cbfs) *)
  createTemplateVM : string -> string -> Z -> Z -> string -> string ->
                     string -> string -> Sys ->
                     result template.TemplateVmConfig * Sys;
  (* the driver cloning a machine from a template's preserved state *)
  cloneFromTemplate : template.TemplateVmConfig -> string -> Sys ->
                      result hypervisor.Vm * Sys;
  (* the driver booting a fresh machine *)
  bootVM : hypervisor.BootConfig -> Sys -> result hypervisor.Vm * Sys;
  (* the driver releasing a template's backing state; [Some e] when the
     release fails *)
  destroyTemplate : template.TemplateVmConfig -> Sys -> option error * Sys
}.

(** *** The state monad of effectful code *)
Definition M (A : Type) : Type := World -> A * World.

Definition ret {A : Type} (a : A) : M A := fun w => (a, w).

Definition bind {A B : Type} (c : M A) (k : A -> M B) : M B :=
  fun w => let (a, w') := c w in k a w'.

Definition set_sys (y : Sys) (w : World) : World :=
  {| sys := y; rand_off := rand_off w; glog := glog w; calls := calls w |}.

Definition add_rand (n : nat) (w : World) : World :=
  {| sys := sys w; rand_off := (rand_off w + n)%nat; glog := glog w;
     calls := calls w |}.

(** [glog.Infof] and [glog.Errorf]: one more line in the log. *)
Definition logf (severity : Severity) (line : string) : M unit :=
  fun w => (tt, {| sys := sys w; rand_off := rand_off w;
                   glog := glog w ++ [(severity, line)]; calls := calls w |}).

Definition Infof (line : string) : M unit := logf INFO line.

Definition Errorf (line : string) : M unit := logf ERROR line.

Definition record (c : Call) : M unit :=
  fun w => (tt, {| sys := sys w; rand_off := rand_off w; glog := glog w;
                   calls := calls w ++ [c] |}).

(** Run a collaborator on the outside world. *)
Definition outside {A : Type} (f : Sys -> A * Sys) : M A :=
  fun w => let (a, y) := f (sys w) in (a, set_sys y w).

End World.

Arguments Sys : clear implicits.
Arguments World : clear implicits.
Arguments Env : clear implicits.
Arguments M : clear implicits.

Declare Scope go_scope.
Delimit Scope go_scope with go.
Notation "x <- c ;; k" := (bind c (fun x => k))
  (at level 100, c at next level, right associativity) : go_scope.
Notation "c ;; k" := (bind c (fun _ => k))
  (at level 100, right associativity) : go_scope.

Local Open Scope go_scope.

(** Runs the state monad: a computation becomes a function of the world. *)
Ltac run_M :=
  unfold outside, record, Infof, Errorf, logf, set_sys, add_rand;
  unfold bind, ret;
  cbn [sys rand_off glog calls].

(** ** Package os *)
Module os.
Section os.
Context {Hv : Type} (env : Env Hv).

Definition stat_at (name : string) (y : Sys Hv) : StatResult :=
  match stat_fault env name with
  | Some e => StatFault e
  | None => if bool_decide (name ∈ files y) then StatOk else StatNotExist
  end.

(** [os.Stat(name)] *)
Definition Stat (name : string) : M Hv StatResult :=
  record (CallStat name) ;;
  fun w => (stat_at name (sys w), w).

(** [os.IsNotExist(err)] on the error of a [Stat]: true for [ENOENT]
    alone; false for a nil error and for every other failure. *)
Definition IsNotExist (r : StatResult) : bool :=
  match r with
  | StatNotExist => true
  | StatOk | StatFault _ => false
  end.

End os.
End os.

(** ** Package pod: random identifiers *)
Module pod.
Section pod.
Context {Hv : Type} (env : Env Hv).

(** Modelled from the spec: the alphabets of [pod.RandStr], which is not
    among the sources.  The spec has the identifiers alphanumeric. *)
Definition letters : string :=
  "ABCDEFGHIJKLMNOPQRSTUVWXYZabcdefghijklmnopqrstuvwxyz".

Definition digits : string := "0123456789".

(** Modelled from the spec: the characters an identifier of the given
    class is made of, the letters for the class ["alpha"] that [New] asks
    for, letters and digits otherwise. *)
Definition dictionary (randType : string) : string :=
  if bool_decide (randType = "alpha") then letters else digits +:+ letters.

(** Modelled from the spec: the character a random byte selects, the
    byte, an 8-bit value, modulo the size of the dictionary. *)
Definition pick (dict : string) (v : N) : ascii :=
  match String.get
          (N.to_nat ((v mod 256) mod N.of_nat (String.length dict))) dict with
  | Some c => c
  | None => "A"%char
  end.

(** Modelled from the spec: [n] characters, from the bytes of the random
    source at [off] and after. *)
Fixpoint draw (dict : string) (off n : nat) : string :=
  match n with
  | O => ""
  | S k => String (pick dict (rand_byte env off)) (draw dict (S off) k)
  end.

(** Modelled from the spec: [pod.RandStr(strSize, randType)], which is not
    among the sources.  The spec describes its result as a random
    alphanumeric identifier of fixed length; the model reads [strSize]
    bytes from the random source and lets each select one character of the
    dictionary of [randType]. *)
Definition RandStr (strSize : nat) (randType : string) : M Hv string :=
  record (CallRandRead strSize) ;;
  fun w => (draw (dictionary randType) (rand_off w) strSize,
            add_rand strSize w).

End pod.
End pod.

(** ** Package template: what is done with a descriptor *)
Module templatecore.
Import template.
Section templatecore.
Context {Hv : Type} (env : Env Hv).

(** [template.CreateTemplateVM]: boots a machine that persists its state
    under [statePath]; what it does and whether it succeeds is the
    collaborator's. *)
Definition CreateTemplateVM (statePath name : string) (cpu mem : Z)
    (kernel initrd bios cbfs : string) : M Hv (result TemplateVmConfig) :=
  record (CallCreateTemplateVM statePath name cpu mem kernel initrd bios cbfs) ;;
  outside (createTemplateVM env statePath name cpu mem kernel initrd bios cbfs).

(** Modelled from the spec: [TemplateVmConfig.BootConfigFromTemplate],
    which is not among the sources.  The spec has it derive a
    configuration with the same kernel, initrd, driver and sizing as the
    template, free of side effects. *)
Definition BootConfigFromTemplate (t : TemplateVmConfig)
    : M Hv hypervisor.BootConfig :=
  ret {| hypervisor.CPU := Cpu t;
         hypervisor.Memory := Memory t;
         hypervisor.Kernel := Kernel t;
         hypervisor.Initrd := Initrd t;
         hypervisor.Driver := Driver t;
         hypervisor.Bios := "";
         hypervisor.Cbfs := "" |}.

(** [TemplateVmConfig.NewVmFromTemplate(vmName)]: clones a machine from
    the template's preserved state; what it does and whether it succeeds
    is the collaborator's.  It is given the descriptor and hands none
    back. *)
Definition NewVmFromTemplate (t : TemplateVmConfig) (vmName : string)
    : M Hv (result hypervisor.Vm) :=
  record (CallClone t vmName) ;;
  outside (cloneFromTemplate env t vmName).

(** Modelled from the spec: [TemplateVmConfig.Destroy], which is not among
    the sources.  The spec has it release the template's backing state
    through the driver; a failure to release is logged and goes no
    further. *)
Definition Destroy (t : TemplateVmConfig) : M Hv unit :=
  record (CallDestroy t) ;;
  r <- outside (destroyTemplate env t) ;;
  match r with
  | Some e => Infof ("failed to release the template state: " +:+ e)
  | None => ret tt
  end.

End templatecore.
End templatecore.

(** ** Package base: the factory interface *)
Module base.

(** [base.Factory]: the three methods every strategy offers. *)
Class Factory (F : Type) : Type := {
  Config : forall {Hv : Type}, Env Hv -> F -> M Hv hypervisor.BootConfig;
  GetBaseVm : forall {Hv : Type}, Env Hv -> F -> M Hv (result hypervisor.Vm);
  CloseFactory : forall {Hv : Type}, Env Hv -> F -> M Hv unit
}.

End base.

(** ** Package direct: cold boot *)
Module direct.

(** Modelled from the spec: the direct factory, which is not among the
    sources.  It owns nothing beyond the static configuration it is built
    with. *)
Record directFactory : Type := {
  cpu : Z;
  mem : Z;
  kernel : string;
  initrd : string
}.

(** [direct.New(cpu, mem, kernel, initrd)]: the factory that boots with
    these. *)
Definition New (cpu mem : Z) (kernel initrd : string) : directFactory :=
  {| cpu := cpu; mem := mem; kernel := kernel; initrd := initrd |}.

Section direct.
Context {Hv : Type} (env : Env Hv).

(** Modelled from the spec: [Config] of the direct factory, which is
    stateless, is the static configuration it was built with. *)
Definition Config (d : directFactory) : M Hv hypervisor.BootConfig :=
  ret {| hypervisor.CPU := cpu d;
         hypervisor.Memory := mem d;
         hypervisor.Kernel := kernel d;
         hypervisor.Initrd := initrd d;
         hypervisor.Driver := "";
         hypervisor.Bios := "";
         hypervisor.Cbfs := "" |}.

(** Modelled from the spec: [GetBaseVm] of the direct factory boots a new
    machine from its configuration, through the driver, on every call. *)
Definition GetBaseVm (d : directFactory) : M Hv (result hypervisor.Vm) :=
  b <- Config d ;;
  record (CallBoot b) ;;
  outside (bootVM env b).

(** Modelled from the spec: [CloseFactory] of the direct factory has
    nothing to release. *)
Definition CloseFactory (d : directFactory) : M Hv unit := ret tt.

End direct.

#[global] Instance directFactory_Factory : base.Factory directFactory := {
  base.Config := fun Hv _ d => Config d;
  base.GetBaseVm := fun Hv env d => GetBaseVm env d;
  base.CloseFactory := fun Hv _ d => CloseFactory d
}.

End direct.

(** ** Package factory/template: the template factory (template.go) *)
Module templatefactory.
Import template.

(** [type templateFactory struct { s *template.TemplateVmConfig }].  The
    pointer is never nil where this program builds one: [New] stores what
    [CreateTemplateVM] returned with a nil error, and the daemon has read
    through its descriptor before it calls [NewFromExisted]. *)
Record templateFactory : Type := {
  s : TemplateVmConfig
}.

(** The [base.Factory] interface values this package hands out: a
    [*templateFactory], or what [direct.New] built. *)
Inductive Factory : Type :=
| ofTemplate (t : templateFactory)
| ofDirect (d : direct.directFactory).

Section templatefactory.
Context {Hv : Type} (env : Env Hv).

(** The loop of [New] that picks the template's name (lines 22-27).  Go's
    [for] has no bound; [fuel] bounds the iterations the model follows, and
    [None] says the loop was still running when the fuel ran out. *)
Fixpoint pickName (fuel : nat) (templateRoot : string) : M Hv (option string) :=
  match fuel with
  | O => ret None
  | S n =>
      id <- pod.RandStr env 10 "alpha" ;;
      let vmName := "template-vm-" +:+ id in
      r <- os.Stat env ((templateRoot +:+ "/") +:+ vmName) ;;
      if os.IsNotExist r then ret (Some vmName) else pickName n templateRoot
  end.

(** [New(templateRoot, cpu, mem, kernel, initrd)] *)
Definition New (fuel : nat) (templateRoot : string) (cpu mem : Z)
    (kernel initrd : string) : M Hv (option Factory) :=
  picked <- pickName fuel templateRoot ;;
  match picked with
  | None => ret None
  | Some vmName =>
      let bios := "" in
      let cbfs := "" in
      r <- templatecore.CreateTemplateVM env ((templateRoot +:+ "/") +:+ vmName)
             vmName cpu mem kernel initrd bios cbfs ;;
      match r with
      | Err err =>
          Infof ("failed to create template factory: " +:+ err) ;;
          Infof "use direct factory instead" ;;
          ret (Some (ofDirect (direct.New cpu mem kernel initrd)))
      | Ok s => ret (Some (ofTemplate {| s := s |}))
      end
  end.

(** [NewFromExisted(s)] *)
Definition NewFromExisted (s : TemplateVmConfig) : M Hv Factory :=
  ret (ofTemplate {| s := s |}).

(** [(t *templateFactory) Config()] *)
Definition Config (t : templateFactory) : M Hv hypervisor.BootConfig :=
  templatecore.BootConfigFromTemplate (s t).

(** [(t *templateFactory) GetBaseVm()] *)
Definition GetBaseVm (t : templateFactory) : M Hv (result hypervisor.Vm) :=
  templatecore.NewVmFromTemplate env (s t) "".

(** [(t *templateFactory) CloseFactory()] *)
Definition CloseFactory (t : templateFactory) : M Hv unit :=
  templatecore.Destroy env (s t).

End templatefactory.

#[global] Instance templateFactory_Factory : base.Factory templateFactory := {
  base.Config := fun Hv _ t => Config t;
  base.GetBaseVm := fun Hv env t => GetBaseVm env t;
  base.CloseFactory := fun Hv env t => CloseFactory env t
}.

(** A method called on the interface value goes to the method of the
    value inside. *)
#[global] Instance Factory_Factory : base.Factory Factory := {
  base.Config := fun Hv env f =>
    match f with
    | ofTemplate t => base.Config env t
    | ofDirect d => base.Config env d
    end;
  base.GetBaseVm := fun Hv env f =>
    match f with
    | ofTemplate t => base.GetBaseVm env t
    | ofDirect d => base.GetBaseVm env d
    end;
  base.CloseFactory := fun Hv env f =>
    match f with
    | ofTemplate t => base.CloseFactory env t
    | ofDirect d => base.CloseFactory env d
    end
}.

End templatefactory.

(** ** Package factory: what the daemon hands to the supervisor *)
Module factory.

(** The [factory.Factory] values the daemon builds, named by the call that
    builds them: [singlefactory.New(b)] and
    [factory.NewFromConfigs(kernel, initrd, configs)].  The element type of
    [configs] is declared elsewhere and is left open. *)
Inductive Factory {FactoryConfig : Type} : Type :=
| Single (b : templatefactory.Factory)
| FromConfigs (kernel initrd : string) (configs : list FactoryConfig).
Arguments Factory : clear implicits.

Definition NewFromConfigs {FactoryConfig : Type} (kernel initrd : string)
    (configs : list FactoryConfig) : Factory FactoryConfig :=
  FromConfigs kernel initrd configs.

End factory.

Module singlefactory.

Definition New {FactoryConfig : Type} (b : templatefactory.Factory)
    : factory.Factory FactoryConfig :=
  factory.Single b.

End singlefactory.

(** ** The containerd command: start-up of the daemon *)
Module containerd.
Import template.

(** The handle [driverloader.Probe] returns for a hypervisor driver. *)
Record HypervisorDriver : Type := {
  driverName : string
}.

(** What opening [config.json] and decoding it into [tconfig] gives.  The
    decoder leaves the pointer nil on the JSON value [null]. *)
Inductive ConfigFile : Type :=
| OpenFails (err : error)
| DecodeFails (err : error)
| Decodes (tconfig : option TemplateVmConfig).

(** The machine the daemon starts on. *)
Record Host : Type := {
  (* filepath.Join of a directory and a file name *)
  Join : string -> string -> string;
  (* the file at a path, opened and decoded *)
  config_file : string -> ConfigFile;
  (* driverloader.Probe(driver) *)
  Probe : string -> result HypervisorDriver
}.

(** The values [Action] reads from its [cli.Context]. *)
Record cli_Context : Type := {
  global_driver : string;
  global_kernel : string;
  global_initrd : string;
  global_template : string;
  global_debug : bool;
  global_log_dir : string;
  state_dir : string;
  containerd_dir : string
}.

(** How a run ends: it goes on with a value, the process exits with a
    status, or it panics. *)
Inductive Res (A : Type) : Type :=
| Val (a : A)
| Exit (code : Z)
| Panic (msg : string).
Arguments Val {A} a.
Arguments Exit {A} code.
Arguments Panic {A} msg.

Section containerd.
Context {Hv FactoryConfig : Type} (host : Host).

(** The process: the world it acts on, glog's verbosity, and the two
    package variables of [hypervisor] that [Action] assigns. *)
Record Proc : Type := {
  world : World Hv;
  verbosity : Z;
  InterfaceCount : Z;
  HDriver : option HypervisorDriver
}.

(** State, early exit and panic. *)
Definition D (A : Type) : Type := Proc -> Res A * Proc.

Definition dret {A : Type} (a : A) : D A := fun p => (Val a, p).

Definition dbind {A B : Type} (c : D A) (k : A -> D B) : D B :=
  fun p =>
    match c p with
    | (Val a, p') => k a p'
    | (Exit code, p') => (Exit code, p')
    | (Panic msg, p') => (Panic msg, p')
    end.

(** An effect on the world, inside the process. *)
Definition lift {A : Type} (c : M Hv A) : D A :=
  fun p =>
    let (a, w) := c (world p) in
    (Val a, {| world := w; verbosity := verbosity p;
               InterfaceCount := InterfaceCount p; HDriver := HDriver p |}).

(** [os.Exit(code)] *)
Definition os_Exit {A : Type} (code : Z) : D A := fun p => (Exit code, p).

Definition panic {A : Type} (msg : string) : D A := fun p => (Panic msg, p).

(** Reading a field through a pointer: a nil pointer panics. *)
Definition deref {A : Type} (ptr : option A) : D A :=
  match ptr with
  | Some a => dret a
  | None => panic "invalid memory address or nil pointer dereference"
  end.

(** Go's [a && b] and [a || b]: [b] runs only when [a] does not decide. *)
Definition and_then (a : bool) (b : D bool) : D bool :=
  if a then b else dret false.

Definition or_else (a : D bool) (b : D bool) : D bool :=
  dbind a (fun x => if x then dret true else b).

(** [flag.CommandLine.Parse(arguments)] as [Action] uses it: the value
    after [-v] becomes glog's verbosity. *)
Definition flag_Parse (v : Z) (arguments : list string) : D unit :=
  dbind (lift (record (CallFlagParse arguments))) (fun _ =>
  fun p => (Val tt, {| world := world p; verbosity := v;
                       InterfaceCount := InterfaceCount p;
                       HDriver := HDriver p |})).

(** [glog.V(level).Infof]: logged when the verbosity reaches [level]. *)
Definition V_Infof (level : Z) (line : string) : D unit :=
  fun p => if (level <=? verbosity p)%Z then lift (Infof line) p
           else (Val tt, p).

Definition set_InterfaceCount (n : Z) : D unit :=
  fun p => (Val tt, {| world := world p; verbosity := verbosity p;
                       InterfaceCount := n; HDriver := HDriver p |}).

Definition set_HDriver (h : option HypervisorDriver) : D unit :=
  fun p => (Val tt, {| world := world p; verbosity := verbosity p;
                       InterfaceCount := InterfaceCount p; HDriver := h |}).

(** The arguments [Action] has ready for [supervisor.New] at line 117. *)
Record Started : Type := {
  stateDir : string;
  containerdDir : string;
  f : factory.Factory FactoryConfig
}.

Definition newline : string := String (ascii_of_nat 10) "".

Local Notation "x <- c ;; k" := (dbind c (fun x => k))
  (at level 100, c at next level, right associativity).
Local Notation "c ;; k" := (dbind c (fun _ => k))
  (at level 100, right associativity).

(** Lines 76-102: the descriptor is loaded and checked against the
    arguments.  The result is [tconfig] and the values [template] and
    [driver] have after the block. *)
Definition checkTemplate (driver kernel initrd template : string)
    : D (option TemplateVmConfig * string * string) :=
  if bool_decide (template ≠ "") then
    let path := Join host template "config.json" in
    lift (record (CallOpen path)) ;;
    match config_file host path with
    | OpenFails err =>
        lift (Errorf ("open template JSON configuration file failed: "
                      +:+ err +:+ newline)) ;;
        os_Exit (-1)
    | DecodeFails err =>
        lift (Errorf ("parse template JSON configuration file failed: "
                      +:+ err +:+ newline)) ;;
        lift (record (CallClose path)) ;;
        os_Exit (-1)
    | Decodes tconfig =>
        lift (record (CallClose path)) ;;
        differs <-
          or_else
            (and_then (bool_decide (driver ≠ ""))
               (t <- deref tconfig ;; dret (bool_decide (driver ≠ Driver t))))
            (or_else
               (and_then (bool_decide (kernel ≠ ""))
                  (t <- deref tconfig ;; dret (bool_decide (kernel ≠ Kernel t))))
               (and_then (bool_decide (initrd ≠ ""))
                  (t <- deref tconfig ;; dret (bool_decide (initrd ≠ Initrd t))))) ;;
        if differs then
          lift (Infof "template config is not match the driver, kernel or initrd argument, disable template") ;;
          dret (tconfig, "", driver)
        else if bool_decide (driver = "") then
          t <- deref tconfig ;;
          dret (tconfig, template, Driver t)
        else dret (tconfig, template, driver)
    end
  else if bool_decide (kernel = "") || bool_decide (initrd = "") then
    lift (Infof "argument kernel and initrd must be set") ;;
    os_Exit 1
  else dret (None, template, driver).

(** [Action], lines 60-116: up to the factory the supervisor is built
    with. *)
Definition Action (context : cli_Context) : D Started :=
  let driver := global_driver context in
  let kernel := global_kernel context in
  let initrd := global_initrd context in
  let template := global_template context in
  let stateDir := state_dir context in
  let containerdDir := containerd_dir context in
  let containerdDir :=
    if bool_decide (containerdDir = "") then stateDir else containerdDir in
  (if global_debug context then
     flag_Parse 3 ["-v"; "3"; "--log_dir"; global_log_dir context;
                   "--alsologtostderr"]
   else
     flag_Parse 1 ["-v"; "1"; "--log_dir"; global_log_dir context]) ;;
  checked <- checkTemplate driver kernel initrd template ;;
  let '(tconfig, template, driver) := checked in
  set_InterfaceCount 0 ;;
  lift (record (CallProbe driver)) ;;
  match Probe host driver with
  | Err err =>
      set_HDriver None ;;
      V_Infof 1 (err +:+ newline) ;;
      os_Exit 1
  | Ok h => set_HDriver (Some h)
  end ;;
  f <- (if bool_decide (template ≠ "") then
          (* tconfig is not nil here: a nil one has panicked in the check *)
          t <- deref tconfig ;;
          b <- lift (templatefactory.NewFromExisted t) ;;
          dret (singlefactory.New b)
        else dret (factory.NewFromConfigs kernel initrd [])) ;;
  dret {| stateDir := stateDir; containerdDir := containerdDir; f := f |}.

End containerd.
End containerd.

(** ** The containerd command: serving (lines 28-33 and 117-199) *)
Module serving.
Import containerd.

Definition usage : string :=
  "High performance hypervisor based container daemon".

Definition defaultStateDir : string := "/run/runv-containerd".

Definition defaultListenType : string := "unix".

Definition defaultGRPCEndpoint : string :=
  "/run/runv-containerd/containerd.sock".

(** The signals [daemon] asks to be notified of. *)
Inductive Signal : Type := SIGCHLD | SIGTERM | SIGINT | SIGQUIT.

(** How [%s] prints a signal. *)
Definition Signal_String (ss : Signal) : string :=
  match ss with
  | SIGCHLD => "child exited"
  | SIGTERM => "terminated"
  | SIGINT => "interrupt"
  | SIGQUIT => "quit"
  end.

(** The fields of a [supervisor.Event] that [namespaceShare] reads; the
    field [Type] is spelt [Type_] here. *)
Record Event : Type := {
  Type_ : string;
  ID : string;
  PID : string
}.

(** What [net.Listen] hands back. *)
Record Listener : Type := {
  network : string;
  laddr : string
}.

(** A function that can return, on the input it has been given so far:
    it has returned, or it is waiting for more. *)
Inductive Ran (A : Type) : Type :=
| Returned (a : A)
| Blocked.
Arguments Returned {A} a.
Arguments Blocked {A}.

(** Go's [int], 64 bits wide: the value an arithmetic result wraps to. *)
Definition wrap64 (z : Z) : Z := (z + 2 ^ 63) mod 2 ^ 64 - 2 ^ 63.

Section serving.
Context {Hv FactoryConfig Sv : Type}.

(** A [grpc.Server], known by the services registered with it. *)
Record Server : Type := {
  registered : list Sv
}.

(** What the daemon does to its surroundings while it serves, in the order
    it does it. *)
Inductive Effect : Type :=
| DoSupervisorNew (stateDir containerdDir : string)
                  (f : factory.Factory FactoryConfig)
| DoGoNamespaceShare (sv : Sv) (namespace state : string)
| DoNotify (signals : list Signal)
| DoRemoveAll (path : string)
| DoListen (network address : string)
| DoNewServer
| DoRegister (sv : Sv)
| DoGoServe (s : Server) (l : Listener)
| DoReap
| DoSleep (seconds : Z)
| DoStop (s : Server)
| DoSymlink (oldname newname : string)
| DoKill (pid : Z) (ss : Signal).

(** The packages and system calls serving relies on and whose code is
    elsewhere: their behaviour is arbitrary. *)
Record Platform : Type := {
  (* supervisor.EventContainerStart and supervisor.EventExit *)
  EventContainerStart : string;
  EventExit : string;
  (* filepath.Join of three elements *)
  Join3 : string -> string -> string -> string;
  (* supervisor.New(stateDir, containerdDir, f) *)
  supervisor_New : string -> string -> factory.Factory FactoryConfig ->
                   Sys Hv -> result Sv * Sys Hv;
  (* os.RemoveAll(path); [Some e] when it fails *)
  RemoveAll : string -> Sys Hv -> option error * Sys Hv;
  (* net.Listen(network, address); [Some e] when it fails *)
  Listen : string -> string -> Sys Hv -> option error * Sys Hv;
  (* osutils.Reap(); [Some e] when it fails *)
  Reap : Sys Hv -> option error * Sys Hv
}.

Context (platform : Platform).

(** The process while it serves: the process of start-up, and what it has
    done since. *)
Record State : Type := {
  proc : @Proc Hv;
  effects : list Effect
}.

Definition E (A : Type) : Type := State -> Res A * State.

Definition eret {A : Type} (a : A) : E A := fun st => (Val a, st).

Definition ebind {A B : Type} (c : E A) (k : A -> E B) : E B :=
  fun st =>
    match c st with
    | (Val a, st') => k a st'
    | (Exit code, st') => (Exit code, st')
    | (Panic msg, st') => (Panic msg, st')
    end.

(** A step of start-up's monad, inside the serving process. *)
Definition from_D {A : Type} (c : @D Hv A) : E A :=
  fun st =>
    let (r, p) := c (proc st) in
    (r, {| proc := p; effects := effects st |}).

Definition does (e : Effect) : E unit :=
  fun st => (Val tt, {| proc := proc st; effects := effects st ++ [e] |}).

(** A call into the platform, on the outside world. *)
Definition sys_call {A : Type} (f : Sys Hv -> A * Sys Hv) : E A :=
  from_D (lift (outside f)).

(** [glog.Infof] *)
Definition infof (line : string) : E unit := from_D (lift (Infof line)).

Local Notation "x <- c ;; k" := (ebind c (fun x => k))
  (at level 100, c at next level, right associativity).
Local Notation "c ;; k" := (ebind c (fun _ => k))
  (at level 100, right associativity).

(** [startServer(address, sv)] *)
Definition startServer (address : string) (sv : Sv) : E (result Server) :=
  does (DoRemoveAll address) ;;
  removed <- sys_call (RemoveAll platform address) ;;
  match removed with
  | Some err => eret (Err err)
  | None =>
      does (DoListen defaultListenType address) ;;
      listened <- sys_call (Listen platform defaultListenType address) ;;
      match listened with
      | Some err => eret (Err err)
      | None =>
          let l := {| network := defaultListenType; laddr := address |} in
          does DoNewServer ;;
          does (DoRegister sv) ;;
          let s := {| registered := [sv] |} in
          does (DoGoServe s l) ;;
          eret (Ok s)
      end
  end.

(** The goroutine [startServer] leaves behind: what it logs, given how
    [s.Serve(l)] ends. *)
Definition serve_routine (address : string) (served : option error)
    : list (Severity * string) :=
  (INFO, "containerd: grpc api on " +:+ address) ::
  match served with
  | Some _ => [(INFO, "containerd: serve grpc error")]
  | None => []
  end.

(** The loop of [daemon] over the signals that arrive (lines 148-160).
    When they are used up the loop is waiting for the next one. *)
Fixpoint signal_loop (server : Server) (signals : list Signal)
    : E (Ran (option error)) :=
  match signals with
  | [] => eret Blocked
  | ss :: rest =>
      match ss with
      | SIGCHLD =>
          does DoReap ;;
          reaped <- sys_call (Reap platform) ;;
          match reaped with
          | Some _ => infof "containerd: reap child processes"
          | None => eret tt
          end ;;
          signal_loop server rest
      | SIGTERM | SIGINT | SIGQUIT =>
          infof ("stopping containerd after receiving " +:+ Signal_String ss) ;;
          does (DoSleep 3) ;;
          does (DoStop server) ;;
          eret (Returned None)
      end
  end.

(** [daemon(sv, address)], on the signals that arrive. *)
Definition daemon (sv : Sv) (address : string) (signals : list Signal)
    : E (Ran (option error)) :=
  does (DoNotify [SIGCHLD; SIGTERM; SIGINT; SIGQUIT]) ;;
  started <- startServer address sv ;;
  match started with
  | Err err => eret (Returned (Some err))
  | Ok server => signal_loop server signals
  end.

(** One turn of the loop of [namespaceShare]: the counter after the event,
    and what the turn does. *)
Definition namespaceShare_step (namespace state : string)
    (containerCount : Z) (e : Event) : Z * list Effect :=
  if bool_decide (Type_ e = EventContainerStart platform) then
    (wrap64 (containerCount + 1),
     [DoSymlink namespace (Join3 platform state (ID e) "namespace")])
  else if bool_decide (Type_ e = EventExit platform) &&
          bool_decide (PID e = "init") then
    let containerCount := wrap64 (containerCount - 1) in
    (containerCount,
     if bool_decide (containerCount = 0) then [DoKill 0 SIGQUIT] else [])
  else (containerCount, []).

Fixpoint namespaceShare_from (namespace state : string) (containerCount : Z)
    (events : list Event) : Z * list Effect :=
  match events with
  | [] => (containerCount, [])
  | e :: rest =>
      let (count, done) := namespaceShare_step namespace state containerCount e in
      let (final, more) := namespaceShare_from namespace state count rest in
      (final, done ++ more)
  end.

(** [namespaceShare(sv, namespace, state)], on the events that arrive on
    the channel it gets from [sv.Events.Events]: the counter it ends with
    and what it has done.  It runs as a goroutine of its own and reads no
    result of what it does. *)
Definition namespaceShare (sv : Sv) (namespace state : string)
    (events : list Event) : Z * list Effect :=
  let containerCount := 0 in
  namespaceShare_from namespace state containerCount events.

(** The flags [Action] reads after start-up. *)
Record ServeFlags : Type := {
  solo_namespaced : bool;
  listen : string
}.

(** [Action], lines 117-135: from the factory to the end of the process. *)
Definition serve (flags : ServeFlags) (started : @Started FactoryConfig)
    (signals : list Signal) : E (Ran unit) :=
  let stateDir := stateDir started in
  let containerdDir := containerdDir started in
  does (DoSupervisorNew stateDir containerdDir (f started)) ;;
  made <- sys_call (supervisor_New platform stateDir containerdDir (f started)) ;;
  sv <- match made with
        | Err err => infof err ;; from_D (os_Exit 1)
        | Ok sv => eret sv
        end ;;
  (if solo_namespaced flags
   then does (DoGoNamespaceShare sv containerdDir stateDir)
   else eret tt) ;;
  ran <- daemon sv (listen flags) signals ;;
  match ran with
  | Blocked => eret Blocked
  | Returned (Some err) => infof err ;; from_D (os_Exit 1)
  | Returned None =>
      (if solo_namespaced flags then
         does (DoRemoveAll containerdDir) ;;
         sys_call (RemoveAll platform containerdDir) ;;
         eret tt
       else eret tt) ;;
      eret (Returned tt)
  end.

(** [Action], whole: start-up, then serving. *)
Definition Action (host : Host) (context : cli_Context) (flags : ServeFlags)
    (signals : list Signal) : E (Ran unit) :=
  started <- from_D (containerd.Action host context) ;;
  serve flags started signals.

End serving.
End serving.

(** * Vocabulary of the statements *)

Section Candidates.
Context {Hv : Type} (env : Env Hv).

(** The name the loop of [New] tries at its iteration [k] (from 0) when it
    starts with [off] bytes of the random source already drawn. *)
Definition candidate (off k : nat) : string :=
  "template-vm-" +:+ pod.draw env pod.letters (off + 10 * k) 10.

(** Whether [os.Stat] reports the path of that candidate as not existing. *)
Definition free (templateRoot : string) (y : Sys Hv) (off k : nat) : bool :=
  os.IsNotExist
    (os.stat_at env ((templateRoot +:+ "/") +:+ candidate off k) y).

(** The world after [k] iterations of the loop. *)
Fixpoint tried (templateRoot : string) (k : nat) (w : World Hv) : World Hv :=
  match k with
  | O => w
  | S j =>
      tried templateRoot j
        {| sys := sys w;
           rand_off := (rand_off w + 10)%nat;
           glog := glog w;
           calls := (calls w ++ [CallRandRead 10]) ++
                    [CallStat ((templateRoot +:+ "/") +:+
                               ("template-vm-" +:+
                                pod.draw env pod.letters (rand_off w) 10))] |}
  end.


(** [GetBaseVm] called [n] times in a row on one factory. *)
Fixpoint GetBaseVms {F : Type} `{base.Factory F} (f : F) (n : nat)
    : M Hv (list (result hypervisor.Vm)) :=
  match n with
  | O => ret []
  | S m =>
      r <- base.GetBaseVm env f ;;
      rs <- GetBaseVms f m ;;
      ret (r :: rs)
  end.


End Candidates.






(** ** The daemon's view of a descriptor *)

(** The descriptor disagrees with the arguments: one of driver, kernel and
    initrd is given on the command line (is not empty) and is not what the
    descriptor records. *)
Definition disagrees (driver kernel initrd : string)
    (cfg : template.TemplateVmConfig) : bool :=
  bool_decide (driver ≠ "") && bool_decide (driver ≠ template.Driver cfg) ||
  bool_decide (kernel ≠ "") && bool_decide (kernel ≠ template.Kernel cfg) ||
  bool_decide (initrd ≠ "") && bool_decide (initrd ≠ template.Initrd cfg).

(** The arguments [Action] parses glog's flags from. *)
Definition glog_flags (context : containerd.cli_Context) : list string :=
  if containerd.global_debug context then
    ["-v"; "3"; "--log_dir"; containerd.global_log_dir context;
     "--alsologtostderr"]
  else ["-v"; "1"; "--log_dir"; containerd.global_log_dir context].

(** The process after start-up has logged [lines], made the calls
    [called], set glog's verbosity and assigned the two package
    variables. *)
Definition proc_after {Hv : Type} (p : @containerd.Proc Hv) (v : Z)
    (lines : list (Severity * string)) (called : list Call) (count : Z)
    (h : option containerd.HypervisorDriver) : @containerd.Proc Hv :=
  {| containerd.world :=
       {| sys := sys (containerd.world p);
          rand_off := rand_off (containerd.world p);
          glog := glog (containerd.world p) ++ lines;
          calls := calls (containerd.world p) ++ called |};
     containerd.verbosity := v;
     containerd.InterfaceCount := count;
     containerd.HDriver := h |}.

(** glog's verbosity after [Action] has parsed the flags. *)
Definition glog_v (context : containerd.cli_Context) : Z :=
  if containerd.global_debug context then 3 else 1.

(** The directory [Action] passes on as the daemon's own. *)
Definition daemon_dir (context : containerd.cli_Context) : string :=
  if bool_decide (containerd.containerd_dir context = "")
  then containerd.state_dir context
  else containerd.containerd_dir context.

Section Selection.
Context {FactoryConfig : Type} (host : containerd.Host).

(** The descriptor the daemon has been supplied with: the one decoded from
    [config.json] under the directory of the [template] argument. *)
Definition supplied (context : containerd.cli_Context)
    : option template.TemplateVmConfig :=
  if bool_decide (containerd.global_template context ≠ "") then
    match containerd.config_file host
            (containerd.Join host (containerd.global_template context)
               "config.json") with
    | containerd.Decodes tconfig => tconfig
    | containerd.OpenFails _ | containerd.DecodeFails _ => None
    end
  else None.

(** The selection rule in the spec's words: [Single(NewFromExisted(config))]
    when a descriptor is supplied and its driver, kernel and initrd match
    the requested ones, a fresh factory from the requested kernel and
    initrd otherwise. *)
Definition selected (context : containerd.cli_Context)
    : factory.Factory FactoryConfig :=
  let fresh :=
    factory.NewFromConfigs (containerd.global_kernel context)
      (containerd.global_initrd context) [] in
  match supplied context with
  | Some cfg =>
      if disagrees (containerd.global_driver context)
           (containerd.global_kernel context)
           (containerd.global_initrd context) cfg
      then fresh
      else singlefactory.New
             (templatefactory.ofTemplate {| templatefactory.s := cfg |})
  | None => fresh
  end.

(** The driver name start-up probes for. *)
Definition probed (context : containerd.cli_Context) : string :=
  let driver := containerd.global_driver context in
  match supplied context with
  | Some cfg =>
      if disagrees driver (containerd.global_kernel context)
           (containerd.global_initrd context) cfg
      then driver
      else if bool_decide (driver = "") then template.Driver cfg else driver
  | None => driver
  end.

(** Start-up gets as far as selecting a factory: the descriptor, when one
    is asked for, is there; kernel and initrd are given when none is asked
    for; and the probe finds the driver. *)
Definition reaches_selection (context : containerd.cli_Context) : bool :=
  (if bool_decide (containerd.global_template context ≠ "")
   then bool_decide (is_Some (supplied context))
   else negb (bool_decide (containerd.global_kernel context = "") ||
              bool_decide (containerd.global_initrd context = ""))) &&
  is_Ok (containerd.Probe host (probed context)).

(** The checks before the probe pass: the descriptor, when one is asked
    for, is there; kernel and initrd are given when none is asked for. *)
Definition passes_checks (context : containerd.cli_Context) : bool :=
  if bool_decide (containerd.global_template context ≠ "")
  then bool_decide (is_Some (supplied context))
  else negb (bool_decide (containerd.global_kernel context = "") ||
             bool_decide (containerd.global_initrd context = "")).

End Selection.

(** The same invocation without the [template] argument. *)
Definition without_template (context : containerd.cli_Context)
    : containerd.cli_Context :=
  {| containerd.global_driver := containerd.global_driver context;
     containerd.global_kernel := containerd.global_kernel context;
     containerd.global_initrd := containerd.global_initrd context;
     containerd.global_template := "";
     containerd.global_debug := containerd.global_debug context;
     containerd.global_log_dir := containerd.global_log_dir context;
     containerd.state_dir := containerd.state_dir context;
     containerd.containerd_dir := containerd.containerd_dir context |}.

(** ** The counter of [namespaceShare] *)

(** The values of Go's [int]. *)
Definition in_int (z : Z) : Prop := - 2 ^ 63 <= z < 2 ^ 63.

Section Containers.
Import serving.
Context {Hv FactoryConfig Sv : Type}
  (platform : @Platform Hv FactoryConfig Sv).

(** The event announces a container that starts. *)
Definition is_start (e : Event) : bool :=
  bool_decide (Type_ e = EventContainerStart platform).

(** The event announces that the init process of a container has exited
    (and is not taken for a start). *)
Definition is_init_exit (e : Event) : bool :=
  negb (is_start e) &&
  bool_decide (Type_ e = EventExit platform) && bool_decide (PID e = "init").

Fixpoint count_events (test : Event -> bool) (events : list Event) : Z :=
  match events with
  | [] => 0
  | e :: rest => (if test e then 1 else 0) + count_events test rest
  end.

(** Starts less init exits. *)
Definition balance (events : list Event) : Z :=
  count_events is_start events - count_events is_init_exit events.

(** The links [namespaceShare] makes for these events. *)
Fixpoint links (namespace state : string) (events : list Event)
    : list (@Effect FactoryConfig Sv) :=
  match events with
  | [] => []
  | e :: rest =>
      if is_start e
      then DoSymlink namespace (Join3 platform state (ID e) "namespace")
             :: links namespace state rest
      else links namespace state rest
  end.

Definition is_symlink (d : @Effect FactoryConfig Sv) : bool :=
  match d with
  | DoSymlink _ _ => true
  | _ => false
  end.

(** The world after [n] calls of [osutils.Reap], and what they made
    [daemon] log. *)
Fixpoint reaped (n : nat) (y : Sys Hv) : Sys Hv :=
  match n with
  | O => y
  | S m => reaped m (snd (Reap platform y))
  end.

Fixpoint reap_lines (n : nat) (y : Sys Hv) : list (Severity * string) :=
  match n with
  | O => []
  | S m =>
      match fst (Reap platform y) with
      | Some _ => [(INFO, "containerd: reap child processes")]
      | None => []
      end ++ reap_lines m (snd (Reap platform y))
  end.

(** The serving process after it has moved the outside world to [y],
    logged [lines] and done [done]. *)
Definition state_after (st : @State Hv FactoryConfig Sv) (y : Sys Hv)
    (lines : list (Severity * string))
    (done : list (@Effect FactoryConfig Sv)) : @State Hv FactoryConfig Sv :=
  {| proc :=
       {| containerd.world :=
            {| sys := y;
               rand_off := rand_off (containerd.world (proc st));
               glog := glog (containerd.world (proc st)) ++ lines;
               calls := calls (containerd.world (proc st)) |};
          containerd.verbosity := containerd.verbosity (proc st);
          containerd.InterfaceCount := containerd.InterfaceCount (proc st);
          containerd.HDriver := containerd.HDriver (proc st) |};
     effects := effects st ++ done |}.

(** The outside world of a serving process. *)
Definition state_sys (st : @State Hv FactoryConfig Sv) : Sys Hv :=
  sys (containerd.world (proc st)).

(** What [startServer] does when nothing fails. *)
Definition server_up (sv : Sv) (address : string)
    : list (@Effect FactoryConfig Sv) :=
  [DoRemoveAll address; DoListen defaultListenType address; DoNewServer;
   DoRegister sv;
   DoGoServe {| registered := [sv] |}
     {| network := defaultListenType; laddr := address |}].

(** The start of the namespace goroutine, in solo-namespaced mode. *)
Definition shares (flags : ServeFlags) (sv : Sv)
    (started : @containerd.Started FactoryConfig)
    : list (@Effect FactoryConfig Sv) :=
  if solo_namespaced flags
  then [DoGoNamespaceShare sv (containerd.containerdDir started)
          (containerd.stateDir started)]
  else [].


End Containers.

(** ** Machines to run the code on *)

(** A machine without hypervisor: no template can be created; a template
    can be cloned from while its state is on disk; a boot succeeds; the
    release of a template removes its state. *)
Definition test_env (rand : nat -> N) : Env unit :=
  {| rand_byte := rand;
     stat_fault := fun _ => None;
     createTemplateVM := fun _ _ _ _ _ _ _ _ y => (Err "no hypervisor", y);
     cloneFromTemplate := fun t vmName y =>
       if bool_decide (template.StatePath t ∈ files y)
       then (Ok {| hypervisor.Id := vmName;
                   hypervisor.Boot :=
                     {| hypervisor.CPU := template.Cpu t;
                        hypervisor.Memory := template.Memory t;
                        hypervisor.Kernel := template.Kernel t;
                        hypervisor.Initrd := template.Initrd t;
                        hypervisor.Driver := template.Driver t;
                        hypervisor.Bios := "";
                        hypervisor.Cbfs := "" |} |}, y)
       else (Err "template state not found", y);
     bootVM := fun b y =>
       (Ok {| hypervisor.Id := "vm"; hypervisor.Boot := b |}, y);
     destroyTemplate := fun t y =>
       (None, {| files := files y ∖ {[template.StatePath t]}; hv := hv y |})
  |}.

(** A random source that counts, and one that is stuck at zero. *)
Definition counting : nat -> N := N.of_nat.


(** A machine on which the template directory cannot be searched. *)
Definition locked_env : Env unit :=
  {| rand_byte := counting;
     stat_fault := fun _ => Some EACCES;
     createTemplateVM := createTemplateVM (test_env counting);
     cloneFromTemplate := cloneFromTemplate (test_env counting);
     bootVM := bootVM (test_env counting);
     destroyTemplate := destroyTemplate (test_env counting) |}.

Definition world_of (paths : gset string) : World unit :=
  {| sys := {| files := paths; hv := tt |};
     rand_off := 0; glog := []; calls := [] |}.

Definition test_root : string := "/var/lib/runv/template".

Definition test_descriptor : template.TemplateVmConfig :=
  {| template.StatePath := "/var/lib/runv/template/template-vm-ABCDEFGHIJ";
     template.Name := "template-vm-ABCDEFGHIJ";
     template.Driver := "kvm";
     template.Cpu := 1;
     template.Memory := 128;
     template.Kernel := "/boot/vmlinuz";
     template.Initrd := "/boot/initrd.img" |}.

(** A host with one descriptor on disk and two drivers; probing for no
    driver in particular finds the first. *)
Definition test_host : containerd.Host :=
  {| containerd.Join := fun dir name => dir +:+ "/" +:+ name;
     containerd.config_file := fun path =>
       if bool_decide (path = "/var/lib/runv/template/config.json")
       then containerd.Decodes (Some test_descriptor)
       else containerd.OpenFails "no such file or directory";
     containerd.Probe := fun driver =>
       if bool_decide (driver = "") then Ok {| containerd.driverName := "kvm" |}
       else if bool_decide (driver = "kvm") || bool_decide (driver = "xen")
       then Ok {| containerd.driverName := driver |}
       else Err "unsupported driver" |}.

Definition test_context (driver kernel initrd template : string)
    : containerd.cli_Context :=
  {| containerd.global_driver := driver;
     containerd.global_kernel := kernel;
     containerd.global_initrd := initrd;
     containerd.global_template := template;
     containerd.global_debug := false;
     containerd.global_log_dir := "/var/log/runv";
     containerd.state_dir := "/run/runv-containerd";
     containerd.containerd_dir := "/run/runv-containerd" |}.

Definition test_proc : @containerd.Proc unit :=
  {| containerd.world := world_of ∅;
     containerd.verbosity := 0;
     containerd.InterfaceCount := 0;
     containerd.HDriver := None |}.

(** A machine with a hypervisor: a template is created under the path
    asked for, which appears among the files. *)
Definition working_env : Env unit :=
  {| rand_byte := counting;
     stat_fault := fun _ => None;
     createTemplateVM := fun statePath name cpu mem kernel initrd _ _ y =>
       (Ok {| template.StatePath := statePath; template.Name := name;
              template.Driver := "kvm"; template.Cpu := cpu;
              template.Memory := mem; template.Kernel := kernel;
              template.Initrd := initrd |},
        {| files := {[statePath]} ∪ files y; hv := hv y |});
     cloneFromTemplate := cloneFromTemplate (test_env counting);
     bootVM := bootVM (test_env counting);
     destroyTemplate := destroyTemplate (test_env counting) |}.

(** A host whose descriptor file holds [null], and one whose descriptor
    file is not JSON. *)
Definition null_host : containerd.Host :=
  {| containerd.Join := containerd.Join test_host;
     containerd.config_file := fun _ => containerd.Decodes None;
     containerd.Probe := containerd.Probe test_host |}.

Definition garbled_host : containerd.Host :=
  {| containerd.Join := containerd.Join test_host;
     containerd.config_file := fun _ =>
       containerd.DecodeFails "invalid character";
     containerd.Probe := containerd.Probe test_host |}.

(** A platform to serve on.  The supervisor, known by its state directory,
    cannot be made without one; a path is removed unless it is the root; an
    address is listened on unless it is empty or taken; there is never a
    child to reap. *)
Definition test_platform : @serving.Platform unit unit string :=
  {| serving.EventContainerStart := "start-container";
     serving.EventExit := "exit";
     serving.Join3 := fun a b c => a +:+ "/" +:+ b +:+ "/" +:+ c;
     serving.supervisor_New := fun stateDir _ _ y =>
       if bool_decide (stateDir = "")
       then (Err "mkdir: no such file or directory", y)
       else (Ok stateDir, y);
     serving.RemoveAll := fun path y =>
       if bool_decide (path = "/")
       then (Some "unlinkat /: device or resource busy", y)
       else (None, {| files := files y ∖ {[path]}; hv := hv y |});
     serving.Listen := fun _ address y =>
       if bool_decide (address = "") || bool_decide (address ∈ files y)
       then (Some "listen unix: bind: invalid argument", y)
       else (None, {| files := {[address]} ∪ files y; hv := hv y |});
     serving.Reap := fun y => (Some "no child processes", y) |}.

Definition test_state : @serving.State unit unit string :=
  {| serving.proc := test_proc; serving.effects := [] |}.

Definition test_started (stateDir : string) : @containerd.Started unit :=
  {| containerd.stateDir := stateDir;
     containerd.containerdDir := "/run/runv-containerd";
     containerd.f := factory.NewFromConfigs "/boot/vmlinuz" "/boot/initrd.img" [] |}.

Definition test_flags (solo : bool) (address : string) : serving.ServeFlags :=
  {| serving.solo_namespaced := solo; serving.listen := address |}.

Definition test_event (type id pid : string) : serving.Event :=
  {| serving.Type_ := type; serving.ID := id; serving.PID := pid |}.

(** * The template factory *)

Section TemplateFactoryFacts.
Context {Hv : Type} (env : Env Hv).

Lemma dictionary_alpha : pod.dictionary "alpha" = pod.letters.
Proof. reflexivity. Qed.

Lemma pickName_unfold (n : nat) (templateRoot : string) (w : World Hv) :
  templatefactory.pickName env (S n) templateRoot w =
  if free env templateRoot (sys w) (rand_off w) 0
  then (Some (candidate env (rand_off w) 0), tried env templateRoot 1 w)
  else templatefactory.pickName env n templateRoot (tried env templateRoot 1 w).
Proof.
  unfold free, candidate. rewrite Nat.mul_0_r, Nat.add_0_r.
  cbn [templatefactory.pickName tried].
  unfold pod.RandStr, os.Stat. run_M.
  rewrite dictionary_alpha.
  destruct (os.IsNotExist _); reflexivity.
Qed.

Lemma candidate_shift (off k : nat) :
  candidate env (off + 10) k = candidate env off (S k).
Proof. unfold candidate. do 2 f_equal. lia. Qed.

Lemma free_shift (templateRoot : string) (y : Sys Hv) (off k : nat) :
  free env templateRoot y (off + 10) k = free env templateRoot y off (S k).
Proof. unfold free. now rewrite candidate_shift. Qed.

Lemma tried_sys (templateRoot : string) (k : nat) (w : World Hv) :
  sys (tried env templateRoot k w) = sys w.
Proof. revert w. induction k as [|k IH]; intros w; [reflexivity|]. cbn. now rewrite IH. Qed.


Lemma tried_1_rand_off (templateRoot : string) (w : World Hv) :
  rand_off (tried env templateRoot 1 w) = (rand_off w + 10)%nat.
Proof. reflexivity. Qed.

Lemma tried_S (templateRoot : string) (k : nat) (w : World Hv) :
  tried env templateRoot (S k) w =
  tried env templateRoot k (tried env templateRoot 1 w).
Proof. reflexivity. Qed.

(** The loop leaves at the first candidate that [os.Stat] reports absent. *)
Lemma pickName_first_free (templateRoot : string) (k : nat) :
  forall (w : World Hv) (fuel : nat),
    (forall j, (j < k)%nat ->
       free env templateRoot (sys w) (rand_off w) j = false) ->
    free env templateRoot (sys w) (rand_off w) k = true ->
    (k < fuel)%nat ->
    templatefactory.pickName env fuel templateRoot w =
    (Some (candidate env (rand_off w) k), tried env templateRoot (S k) w).
Proof.
  induction k as [|k IH]; intros w fuel Hbusy Hfree Hfuel.
  - destruct fuel as [|n]; [lia|]. rewrite pickName_unfold, Hfree. reflexivity.
  - destruct fuel as [|n]; [lia|]. rewrite pickName_unfold.
    rewrite (Hbusy 0%nat) by lia.
    rewrite (tried_S templateRoot (S k) w).
    rewrite <- candidate_shift, <- (tried_1_rand_off templateRoot).
    apply IH.
    + intros j Hj. rewrite tried_sys, tried_1_rand_off, free_shift.
      apply Hbusy. lia.
    + rewrite tried_sys, tried_1_rand_off, free_shift. exact Hfree.
    + lia.
Qed.

(** While no candidate is free the loop is still running. *)
Lemma pickName_all_busy (templateRoot : string) (fuel : nat) :
  forall w : World Hv,
    (forall j, (j < fuel)%nat ->
       free env templateRoot (sys w) (rand_off w) j = false) ->
    templatefactory.pickName env fuel templateRoot w =
    (None, tried env templateRoot fuel w).
Proof.
  induction fuel as [|n IH]; intros w Hbusy; [reflexivity|].
  rewrite pickName_unfold, (Hbusy 0%nat) by lia.
  rewrite (tried_S templateRoot n w). apply IH.
  intros j Hj. rewrite tried_sys, tried_1_rand_off, free_shift.
  apply Hbusy. lia.
Qed.

(** A name the loop returns is a candidate that was free, the first one. *)
Lemma pickName_Some_inv (templateRoot : string) (fuel : nat) :
  forall (w w' : World Hv) (vmName : string),
    templatefactory.pickName env fuel templateRoot w = (Some vmName, w') ->
    exists k, (k < fuel)%nat /\
      vmName = candidate env (rand_off w) k /\
      w' = tried env templateRoot (S k) w /\
      free env templateRoot (sys w) (rand_off w) k = true /\
      forall j, (j < k)%nat ->
        free env templateRoot (sys w) (rand_off w) j = false.
Proof.
  induction fuel as [|n IH]; intros w w' vmName Hrun; [discriminate|].
  rewrite pickName_unfold in Hrun.
  destruct (free env templateRoot (sys w) (rand_off w) 0) eqn:Hfree.
  - inversion Hrun; subst. exists 0%nat. repeat split; [lia|exact Hfree|lia].
  - apply IH in Hrun as (k & Hk & Hname & Hw & Hfreek & Hbusy).
    rewrite tried_sys, tried_1_rand_off in Hfreek, Hbusy.
    rewrite tried_1_rand_off in Hname.
    exists (S k). repeat split.
    + lia.
    + now rewrite <- candidate_shift.
    + exact Hw.
    + now rewrite <- free_shift.
    + intros [|j] Hj; [exact Hfree|]. rewrite <- free_shift. apply Hbusy. lia.
Qed.

Lemma pickName_mono (templateRoot : string) (n m : nat) (w w' : World Hv)
    (vmName : string) :
  templatefactory.pickName env n templateRoot w = (Some vmName, w') ->
  (n <= m)%nat ->
  templatefactory.pickName env m templateRoot w = (Some vmName, w').
Proof.
  intros Hrun Hle.
  apply pickName_Some_inv in Hrun as (k & Hk & -> & -> & Hfree & Hbusy).
  apply pickName_first_free; [exact Hbusy|exact Hfree|lia].
Qed.



End TemplateFactoryFacts.

Section TemplateFactoryMethods.
Context {Hv : Type} (env : Env Hv).

Lemma tried_glog (templateRoot : string) (k : nat) (w : World Hv) :
  glog (tried env templateRoot k w) = glog w.
Proof.
  revert w. induction k as [|k IH]; intros w; [reflexivity|].
  cbn [tried]. now rewrite IH.
Qed.

Lemma New_unfold (fuel : nat) (templateRoot : string) (cpu mem : Z)
    (kernel initrd : string) (w : World Hv) :
  templatefactory.New env fuel templateRoot cpu mem kernel initrd w =
  match templatefactory.pickName env fuel templateRoot w with
  | (None, w1) => (None, w1)
  | (Some vmName, w1) =>
      let path := (templateRoot +:+ "/") +:+ vmName in
      let called :=
        calls w1 ++
        [CallCreateTemplateVM path vmName cpu mem kernel initrd "" ""] in
      match createTemplateVM env path vmName cpu mem kernel initrd "" ""
              (sys w1) with
      | (Ok s, y) =>
          (Some (templatefactory.ofTemplate {| templatefactory.s := s |}),
           {| sys := y; rand_off := rand_off w1; glog := glog w1;
              calls := called |})
      | (Err err, y) =>
          (Some (templatefactory.ofDirect (direct.New cpu mem kernel initrd)),
           {| sys := y; rand_off := rand_off w1;
              glog := (glog w1 ++
                       [(INFO, "failed to create template factory: " +:+ err)])
                      ++ [(INFO, "use direct factory instead")];
              calls := called |})
      end
  end.
Proof.
  unfold templatefactory.New, templatecore.CreateTemplateVM. run_M.
  destruct (templatefactory.pickName env fuel templateRoot w) as [[v|] w1];
    [|reflexivity].
  cbn [sys rand_off glog calls].
  destruct (createTemplateVM env _ _ _ _ _ _ _ _ _) as [[s|err] y]; reflexivity.
Qed.

(** C1. If [CreateTemplateVM] fails, for whatever reason, on the name the
    loop of [New] has picked, then [New] returns a factory all the same:
    the one [direct.New] builds from the [cpu], [mem], [kernel] and
    [initrd] that [New] was called with.  The error goes to the log, in two
    lines, and not to the caller. *)
Theorem New_degrades_to_direct (templateRoot : string) (cpu mem : Z)
    (kernel initrd : string) (n : nat) (w w1 : World Hv) (vmName : string)
    (err : error) (y : Sys Hv) :
  templatefactory.pickName env n templateRoot w = (Some vmName, w1) ->
  createTemplateVM env ((templateRoot +:+ "/") +:+ vmName) vmName
    cpu mem kernel initrd "" "" (sys w1) = (Err err, y) ->
  forall fuel : nat, (n <= fuel)%nat ->
    exists w' : World Hv,
      templatefactory.New env fuel templateRoot cpu mem kernel initrd w =
        (Some (templatefactory.ofDirect (direct.New cpu mem kernel initrd)), w')
      /\ glog w' =
           glog w ++ [(INFO, "failed to create template factory: " +:+ err);
                      (INFO, "use direct factory instead")].
Proof.
  intros Hpick Hcreate fuel Hfuel.
  rewrite New_unfold, (pickName_mono env _ _ _ _ _ _ Hpick Hfuel).
  cbv zeta. rewrite Hcreate.
  eexists; split; [reflexivity|]. cbn [glog].
  apply pickName_Some_inv in Hpick as (k & _ & _ & -> & _).
  rewrite tried_glog, <- app_assoc. reflexivity.
Qed.

Lemma GetBaseVm_template_unfold (t : templatefactory.templateFactory)
    (w : World Hv) :
  base.GetBaseVm env (templatefactory.ofTemplate t) w =
  let (r, y) := cloneFromTemplate env (templatefactory.s t) "" (sys w) in
  (r, {| sys := y; rand_off := rand_off w; glog := glog w;
         calls := calls w ++ [CallClone (templatefactory.s t) ""] |}).
Proof.
  cbn [base.GetBaseVm templatefactory.Factory_Factory
       templatefactory.templateFactory_Factory].
  unfold templatefactory.GetBaseVm, templatecore.NewVmFromTemplate. run_M.
  destruct (cloneFromTemplate env _ _ _); reflexivity.
Qed.

(** C4. When the clone fails inside [GetBaseVm] of a template factory, the
    caller gets that very error.  The one call made is the clone: no
    machine is booted in its place, nothing is logged, and the world is
    what the failed clone left. *)
Theorem GetBaseVm_returns_clone_error (t : templatefactory.templateFactory)
    (w : World Hv) (err : error) (y : Sys Hv) :
  cloneFromTemplate env (templatefactory.s t) "" (sys w) = (Err err, y) ->
  base.GetBaseVm env (templatefactory.ofTemplate t) w =
    (Err err,
     {| sys := y; rand_off := rand_off w; glog := glog w;
        calls := calls w ++ [CallClone (templatefactory.s t) ""] |}).
Proof.
  intros Hclone. rewrite GetBaseVm_template_unfold, Hclone. reflexivity.
Qed.


(** What the factory [New] degrades to does when asked for a machine: it
    boots one, from the kernel and initrd [New] was called with, and
    returns what the driver returns. *)
Lemma direct_GetBaseVm_boots (cpu mem : Z) (kernel initrd : string)
    (w : World Hv) :
  let b := {| hypervisor.CPU := cpu; hypervisor.Memory := mem;
              hypervisor.Kernel := kernel; hypervisor.Initrd := initrd;
              hypervisor.Driver := ""; hypervisor.Bios := "";
              hypervisor.Cbfs := "" |} in
  base.GetBaseVm env
    (templatefactory.ofDirect (direct.New cpu mem kernel initrd)) w =
  (fst (bootVM env b (sys w)),
   {| sys := snd (bootVM env b (sys w)); rand_off := rand_off w;
      glog := glog w; calls := calls w ++ [CallBoot b] |}).
Proof.
  cbv zeta.
  cbn [base.GetBaseVm templatefactory.Factory_Factory
       direct.directFactory_Factory].
  unfold direct.GetBaseVm, direct.Config, direct.New. run_M.
  cbn [direct.cpu direct.mem direct.kernel direct.initrd].
  destruct (bootVM env _ _); reflexivity.
Qed.


(** C7. [NewFromExisted] wraps the descriptor it is given, whatever it
    holds, and does nothing else: the world is untouched, so no file is
    looked at, no template is created and the driver is not called.  A
    descriptor the driver cannot clone from shows as the error of the
    first [GetBaseVm]. *)
Theorem NewFromExisted_attaches_unchecked (s : template.TemplateVmConfig)
    (w : World Hv) :
  templatefactory.NewFromExisted s w =
    (templatefactory.ofTemplate {| templatefactory.s := s |}, w) /\
  forall (err : error) (y : Sys Hv),
    cloneFromTemplate env s "" (sys w) = (Err err, y) ->
    let (f, w1) := templatefactory.NewFromExisted s w in
    fst (base.GetBaseVm env f w1) = Err err.
Proof.
  split; [reflexivity|]. intros err y Hclone.
  unfold templatefactory.NewFromExisted, ret.
  rewrite GetBaseVm_template_unfold. cbn [templatefactory.s].
  rewrite Hclone. reflexivity.
Qed.

End TemplateFactoryMethods.

Section Names.
Context {Hv : Type} (env : Env Hv).










End Names.

Section DaemonFacts.
Import containerd template.
Context {Hv FactoryConfig : Type} (host : Host).

Local Abbreviation Proc := (@Proc Hv).
Local Abbreviation Action := (@Action Hv FactoryConfig host).

Lemma differs_supplied (driver kernel initrd : string) (cfg : TemplateVmConfig)
    (p : Proc) :
  or_else
    (and_then (bool_decide (driver ≠ ""))
       (dbind (deref (Some cfg))
          (fun t => dret (bool_decide (driver ≠ Driver t)))))
    (or_else
       (and_then (bool_decide (kernel ≠ ""))
          (dbind (deref (Some cfg))
             (fun t => dret (bool_decide (kernel ≠ Kernel t)))))
       (and_then (bool_decide (initrd ≠ ""))
          (dbind (deref (Some cfg))
             (fun t => dret (bool_decide (initrd ≠ Initrd t)))))) p =
  (Val (disagrees driver kernel initrd cfg), p).
Proof.
  unfold disagrees, or_else, and_then, dbind, deref, dret.
  destruct (bool_decide (driver ≠ "")); cbn;
    [destruct (bool_decide (driver ≠ Driver cfg)); cbn; [reflexivity|]|];
    (destruct (bool_decide (kernel ≠ "")); cbn;
      [destruct (bool_decide (kernel ≠ Kernel cfg)); cbn; [reflexivity|]|]);
    (destruct (bool_decide (initrd ≠ "")); cbn;
      [destruct (bool_decide (initrd ≠ Initrd cfg)); reflexivity|reflexivity]).
Qed.

Lemma Action_no_template (context : cli_Context) (p : Proc) :
  global_template context = "" ->
  Action context p =
  if bool_decide (global_kernel context = "") ||
     bool_decide (global_initrd context = "")
  then (Exit 1,
        proc_after p (glog_v context)
          [(INFO, "argument kernel and initrd must be set")]
          [CallFlagParse (glog_flags context)]
          (InterfaceCount p) (HDriver p))
  else
    match Probe host (global_driver context) with
    | Err err =>
        (Exit 1,
         proc_after p (glog_v context) [(INFO, err +:+ newline)]
           [CallFlagParse (glog_flags context);
            CallProbe (global_driver context)] 0 None)
    | Ok h =>
        (Val {| stateDir := state_dir context;
                containerdDir := daemon_dir context;
                f := factory.NewFromConfigs (global_kernel context)
                       (global_initrd context) [] |},
         proc_after p (glog_v context) []
           [CallFlagParse (glog_flags context);
            CallProbe (global_driver context)] 0 (Some h))
    end.
Proof.
  intros Htemplate.
  unfold containerd.Action, checkTemplate, glog_flags, glog_v, daemon_dir,
    proc_after.
  rewrite Htemplate.
  rewrite (bool_decide_eq_false_2 ("" ≠ "")) by (intros H; now apply H).
  unfold flag_Parse, V_Infof, set_InterfaceCount, set_HDriver, os_Exit, lift,
    record, Infof, logf, dbind, dret.
  destruct (global_debug context);
    (destruct (bool_decide (global_kernel context = "") ||
               bool_decide (global_initrd context = "")); cbn;
     [rewrite ?app_nil_r; reflexivity|]);
    (destruct (Probe host (global_driver context)); cbn;
     rewrite ?app_nil_r, <- ?app_assoc; reflexivity).
Qed.

Lemma dbind_Val {A B : Type} (c : D A) (k : A -> D B) (p p' : Proc) (a : A) :
  c p = (Val a, p') -> dbind c k p = k a p'.
Proof. intros Hc. unfold dbind. now rewrite Hc. Qed.

Lemma glog_v_ge_1 (context : cli_Context) : (1 <=? glog_v context) = true.
Proof. unfold glog_v. now destruct (global_debug context). Qed.

Lemma flags_parsed (context : cli_Context) (p : Proc) :
  (if global_debug context
   then flag_Parse 3 ["-v"; "3"; "--log_dir"; global_log_dir context;
                      "--alsologtostderr"]
   else flag_Parse 1 ["-v"; "1"; "--log_dir"; global_log_dir context]) p =
  (Val tt,
   proc_after p (glog_v context) [] [CallFlagParse (glog_flags context)]
     (InterfaceCount p) (HDriver p)).
Proof.
  unfold glog_v, glog_flags, proc_after, flag_Parse, lift, record, dbind.
  destruct (global_debug context); cbn; now rewrite app_nil_r.
Qed.

Lemma checkTemplate_descriptor (driver kernel initrd template : string)
    (p : Proc) (cfg : TemplateVmConfig) :
  template ≠ "" ->
  config_file host (Join host template "config.json") = Decodes (Some cfg) ->
  let path := Join host template "config.json" in
  checkTemplate host driver kernel initrd template p =
  if disagrees driver kernel initrd cfg
  then
    (Val (Some cfg, "", driver),
     proc_after p (verbosity p)
       [(INFO, "template config is not match the driver, kernel or initrd argument, disable template")]
       [CallOpen path; CallClose path] (InterfaceCount p) (HDriver p))
  else
    (Val (Some cfg, template,
          if bool_decide (driver = "") then Driver cfg else driver),
     proc_after p (verbosity p) [] [CallOpen path; CallClose path]
       (InterfaceCount p) (HDriver p)).
Proof.
  intros Htemplate Hfile. cbv zeta.
  unfold checkTemplate.
  rewrite (bool_decide_eq_true_2 _ Htemplate), Hfile.
  erewrite dbind_Val by reflexivity.
  erewrite dbind_Val by reflexivity.
  erewrite dbind_Val by apply differs_supplied.
  unfold proc_after, lift, record, Infof, logf, dbind, dret, deref.
  destruct (disagrees driver kernel initrd cfg); cbn.
  - rewrite <- app_assoc. reflexivity.
  - rewrite app_nil_r, <- app_assoc.
    destruct (bool_decide (driver = "")); reflexivity.
Qed.

Lemma Action_descriptor (context : cli_Context) (p : Proc)
    (cfg : TemplateVmConfig) :
  global_template context ≠ "" ->
  config_file host (Join host (global_template context) "config.json") =
    Decodes (Some cfg) ->
  let path := Join host (global_template context) "config.json" in
  let driver := global_driver context in
  Action context p =
  if disagrees driver (global_kernel context) (global_initrd context) cfg
  then
    match Probe host driver with
    | Err err =>
        (Exit 1,
         proc_after p (glog_v context)
           [(INFO, "template config is not match the driver, kernel or initrd argument, disable template");
            (INFO, err +:+ newline)]
           [CallFlagParse (glog_flags context); CallOpen path; CallClose path;
            CallProbe driver] 0 None)
    | Ok h =>
        (Val {| stateDir := state_dir context;
                containerdDir := daemon_dir context;
                f := factory.NewFromConfigs (global_kernel context)
                       (global_initrd context) [] |},
         proc_after p (glog_v context)
           [(INFO, "template config is not match the driver, kernel or initrd argument, disable template")]
           [CallFlagParse (glog_flags context); CallOpen path; CallClose path;
            CallProbe driver] 0 (Some h))
    end
  else
    let probed := if bool_decide (driver = "") then Driver cfg else driver in
    match Probe host probed with
    | Err err =>
        (Exit 1,
         proc_after p (glog_v context) [(INFO, err +:+ newline)]
           [CallFlagParse (glog_flags context); CallOpen path; CallClose path;
            CallProbe probed] 0 None)
    | Ok h =>
        (Val {| stateDir := state_dir context;
                containerdDir := daemon_dir context;
                f := singlefactory.New
                       (templatefactory.ofTemplate
                          {| templatefactory.s := cfg |}) |},
         proc_after p (glog_v context) []
           [CallFlagParse (glog_flags context); CallOpen path; CallClose path;
            CallProbe probed] 0 (Some h))
    end.
Proof.
  intros Htemplate Hfile. cbv zeta.
  unfold containerd.Action.
  erewrite dbind_Val by apply flags_parsed.
  unfold dbind at 1.
  rewrite (checkTemplate_descriptor _ _ _ _ _ cfg Htemplate Hfile).
  unfold proc_after, set_InterfaceCount, set_HDriver, V_Infof, os_Exit, lift,
    record, Infof, logf, dbind, dret, deref, templatefactory.NewFromExisted,
    ret.
  destruct (disagrees _ _ _ cfg); cbn.
  - destruct (Probe host (global_driver context)); cbn.
    + rewrite (bool_decide_eq_false_2 ("" ≠ "")) by (intros H; now apply H).
      cbn. rewrite ?app_nil_r, <- ?app_assoc. reflexivity.
    + rewrite glog_v_ge_1. cbn. rewrite ?app_nil_r, <- ?app_assoc.
      reflexivity.
  - destruct (Probe host _); cbn.
    + rewrite (bool_decide_eq_true_2 _ Htemplate).
      cbn. rewrite ?app_nil_r, <- ?app_assoc. reflexivity.
    + rewrite glog_v_ge_1. cbn. rewrite ?app_nil_r, <- ?app_assoc.
      reflexivity.
Qed.

Lemma Action_open_fails (context : cli_Context) (p : Proc) (err : error) :
  global_template context ≠ "" ->
  config_file host (Join host (global_template context) "config.json") =
    OpenFails err ->
  fst (Action context p) = Exit (-1).
Proof.
  intros Htemplate Hfile. unfold containerd.Action.
  erewrite dbind_Val by apply flags_parsed.
  unfold dbind at 1. unfold checkTemplate.
  rewrite (bool_decide_eq_true_2 _ Htemplate), Hfile. reflexivity.
Qed.

Lemma Action_decode_fails (context : cli_Context) (p : Proc) (err : error) :
  global_template context ≠ "" ->
  config_file host (Join host (global_template context) "config.json") =
    DecodeFails err ->
  fst (Action context p) = Exit (-1).
Proof.
  intros Htemplate Hfile. unfold containerd.Action.
  erewrite dbind_Val by apply flags_parsed.
  unfold dbind at 1. unfold checkTemplate.
  rewrite (bool_decide_eq_true_2 _ Htemplate), Hfile. reflexivity.
Qed.

(** A descriptor file that holds [null] leaves [tconfig] nil, and the
    check reads through it: start-up panics. *)
Lemma Action_nil_descriptor (context : cli_Context) (p : Proc) :
  global_template context ≠ "" ->
  config_file host (Join host (global_template context) "config.json") =
    Decodes None ->
  exists msg : string, fst (Action context p) = Panic msg.
Proof.
  intros Htemplate Hfile. unfold containerd.Action.
  erewrite dbind_Val by apply flags_parsed.
  unfold dbind at 1. unfold checkTemplate.
  rewrite (bool_decide_eq_true_2 _ Htemplate), Hfile.
  erewrite dbind_Val by reflexivity.
  erewrite dbind_Val by reflexivity.
  unfold or_else, and_then, dbind, deref, dret, panic.
  destruct (bool_decide (global_driver context ≠ "")) eqn:Hdriver; cbn;
    [eexists; reflexivity|].
  destruct (bool_decide (global_kernel context ≠ "")); cbn;
    [eexists; reflexivity|].
  destruct (bool_decide (global_initrd context ≠ "")); cbn;
    [eexists; reflexivity|].
  apply bool_decide_eq_false_1 in Hdriver.
  rewrite bool_decide_eq_true_2 by (destruct (decide (global_driver context = "")); [assumption|contradiction]).
  cbn. eexists; reflexivity.
Qed.

(** C3. When a descriptor is supplied and a non-empty driver, kernel or
    initrd argument differs from what it records, start-up drops the
    template and goes on: it logs that the template is disabled, probes the
    driver of the command line, and hands the supervisor the fresh factory
    [NewFromConfigs(kernel, initrd, nil)].  The process exits only if the
    probe fails, as it would without a template. *)
Theorem mismatch_disables_template (context : cli_Context) (p : Proc)
    (cfg : TemplateVmConfig) :
  global_template context ≠ "" ->
  config_file host (Join host (global_template context) "config.json") =
    Decodes (Some cfg) ->
  disagrees (global_driver context) (global_kernel context)
    (global_initrd context) cfg = true ->
  fst (Action context p) =
    match Probe host (global_driver context) with
    | Ok _ =>
        Val {| stateDir := state_dir context;
               containerdDir := daemon_dir context;
               f := factory.NewFromConfigs (global_kernel context)
                      (global_initrd context) [] |}
    | Err _ => Exit 1
    end /\
  In (INFO, "template config is not match the driver, kernel or initrd argument, disable template")
     (glog (world (snd (Action context p)))).
Proof.
  intros Htemplate Hfile Hdiffer.
  rewrite (Action_descriptor context p cfg Htemplate Hfile). cbv zeta.
  rewrite Hdiffer.
  destruct (Probe host (global_driver context)); cbn [fst snd proc_after world glog];
    (split; [reflexivity|]); apply in_or_app; right; left; reflexivity.
Qed.

(** C6. Start-up selects its factory by the rule of the spec: whenever it
    gets as far as selecting, the factory it hands to the supervisor is
    [Single(NewFromExisted(config))] if a descriptor is supplied and
    agrees with the requested driver, kernel and initrd, and the fresh
    [NewFromConfigs(kernel, initrd, nil)] otherwise; a run yields this one
    factory or none.  It gets that far exactly when the descriptor, if
    asked for, can be read, kernel and initrd are given if it is not, and
    the driver is found. *)
Theorem Action_selects_factory (context : cli_Context) (p : Proc) :
  match fst (Action context p) with
  | Val started =>
      reaches_selection host context = true /\
      f started = selected host context
  | Exit _ | Panic _ => reaches_selection host context = false
  end.
Proof.
  unfold reaches_selection, selected, probed, supplied.
  destruct (decide (global_template context = "")) as [Hnone|Htemplate].
  - rewrite (Action_no_template context p Hnone), Hnone.
    rewrite (bool_decide_eq_false_2 ("" ≠ "")) by (intros H; now apply H).
    destruct (bool_decide (global_kernel context = "") ||
              bool_decide (global_initrd context = "")); [reflexivity|].
    destruct (Probe host (global_driver context)); cbn; auto.
  - rewrite (bool_decide_eq_true_2 _ Htemplate).
    destruct (config_file host _) as [err|err|[cfg|]] eqn:Hfile.
    + rewrite (Action_open_fails context p err Htemplate Hfile).
      rewrite bool_decide_eq_false_2 by apply is_Some_None. reflexivity.
    + rewrite (Action_decode_fails context p err Htemplate Hfile).
      rewrite bool_decide_eq_false_2 by apply is_Some_None. reflexivity.
    + rewrite (Action_descriptor context p cfg Htemplate Hfile). cbv zeta.
      rewrite (bool_decide_eq_true_2 (is_Some (Some cfg)))
        by (eexists; reflexivity).
      destruct (disagrees _ _ _ cfg); destruct (Probe host _); cbn; auto.
    + destruct (Action_nil_descriptor context p Htemplate Hfile) as [msg ->].
      rewrite bool_decide_eq_false_2 by apply is_Some_None. reflexivity.
Qed.

(** C10. Without a template argument, an empty kernel or initrd argument
    ends start-up with exit status 1 after the flags are parsed and before
    anything else: the driver is not probed, [hypervisor.HDriver] is not
    assigned and no factory is built.  With a descriptor that agrees with
    the arguments and no driver argument, the name given to the probe is
    the descriptor's [Driver]. *)
Theorem Action_arguments_and_driver :
  (forall (context : cli_Context) (p : Proc),
     global_template context = "" ->
     global_kernel context = "" \/ global_initrd context = "" ->
     fst (Action context p) = Exit 1 /\
     calls (world (snd (Action context p))) =
       calls (world p) ++ [CallFlagParse (glog_flags context)] /\
     HDriver (snd (Action context p)) = HDriver p) /\
  (forall (context : cli_Context) (p : Proc) (cfg : TemplateVmConfig),
     global_template context ≠ "" ->
     config_file host (Join host (global_template context) "config.json") =
       Decodes (Some cfg) ->
     disagrees (global_driver context) (global_kernel context)
       (global_initrd context) cfg = false ->
     global_driver context = "" ->
     calls (world (snd (Action context p))) =
       calls (world p) ++
       [CallFlagParse (glog_flags context);
        CallOpen (Join host (global_template context) "config.json");
        CallClose (Join host (global_template context) "config.json");
        CallProbe (Driver cfg)]).
Proof.
  split.
  - intros context p Hnone Hempty.
    rewrite (Action_no_template context p Hnone).
    assert (Hor : bool_decide (global_kernel context = "") ||
                  bool_decide (global_initrd context = "") = true).
    { destruct Hempty as [H|H]; rewrite (bool_decide_eq_true_2 _ H);
        [reflexivity|apply orb_true_r]. }
    rewrite Hor. auto.
  - intros context p cfg Htemplate Hfile Hagree Hdriver.
    rewrite (Action_descriptor context p cfg Htemplate Hfile). cbv zeta.
    rewrite Hagree, (bool_decide_eq_true_2 _ Hdriver).
    destruct (Probe host (Driver cfg)); reflexivity.
Qed.

End DaemonFacts.

Section Loop.
Context {Hv : Type} (env : Env Hv).





End Loop.

(** * Runs on concrete machines *)

Lemma New_degrades_to_direct_run :
  exists w' : World unit,
    templatefactory.New (test_env counting) 3 test_root 1 128
      "/boot/vmlinuz" "/boot/initrd.img" (world_of ∅) =
      (Some (templatefactory.ofDirect
               (direct.New 1 128 "/boot/vmlinuz" "/boot/initrd.img")), w') /\
    glog w' = glog (world_of ∅) ++
      [(INFO, "failed to create template factory: " +:+ "no hypervisor");
       (INFO, "use direct factory instead")].
Proof.
  apply (New_degrades_to_direct (test_env counting) test_root 1 128
           "/boot/vmlinuz" "/boot/initrd.img" 1 (world_of ∅)
           (tried (test_env counting) test_root 1 (world_of ∅))
           "template-vm-ABCDEFGHIJ" "no hypervisor"
           {| files := ∅; hv := tt |}).
  - vm_compute. reflexivity.
  - vm_compute. reflexivity.
  - lia.
Defined.


(** [CloseFactory] twice on a machine that holds the template's state: the
    first call releases it, the second finds nothing left and changes
    nothing but the list of calls. *)
Example CloseFactory_twice_run :
  let f := templatefactory.ofTemplate
             {| templatefactory.s := test_descriptor |} in
  let w := world_of {[template.StatePath test_descriptor]} in
  let w1 := snd (base.CloseFactory (test_env counting) f w) in
  let w2 := snd (base.CloseFactory (test_env counting) f w1) in
  files (sys w1) = ∅ /\ sys w2 = sys w1 /\ glog w2 = [] /\
  calls w2 = [CallDestroy test_descriptor; CallDestroy test_descriptor].
Proof. vm_compute. repeat split; reflexivity. Qed.

(** The same on a directory that cannot be searched, with a random source
    that does vary: [os.Stat] fails with [EACCES], which is not
    [IsNotExist]. *)
Lemma pickName_locked_directory_never_returns :
  ~ exists (fuel : nat) (vmName : string) (w' : World unit),
      templatefactory.pickName locked_env fuel test_root (world_of ∅) =
      (Some vmName, w').
Proof.
  intros (fuel & vmName & w' & Hrun).
  rewrite pickName_all_busy in Hrun; [discriminate|].
  intros j _. reflexivity.
Qed.


Lemma GetBaseVm_returns_clone_error_run :
  base.GetBaseVm (test_env counting)
    (templatefactory.ofTemplate {| templatefactory.s := test_descriptor |})
    (world_of ∅) =
  (Err "template state not found",
   {| sys := {| files := ∅; hv := tt |}; rand_off := 0; glog := [];
      calls := [CallClone test_descriptor ""] |}).
Proof.
  apply (GetBaseVm_returns_clone_error (test_env counting)
           {| templatefactory.s := test_descriptor |} (world_of ∅)
           "template state not found" {| files := ∅; hv := tt |}).
  vm_compute. reflexivity.
Defined.

Lemma NewFromExisted_attaches_unchecked_run :
  fst (base.GetBaseVm (test_env counting)
         (templatefactory.ofTemplate {| templatefactory.s := test_descriptor |})
         (world_of ∅)) =
  Err "template state not found".
Proof.
  apply (proj2 (NewFromExisted_attaches_unchecked (test_env counting)
                  test_descriptor (world_of ∅))
           "template state not found" {| files := ∅; hv := tt |}).
  vm_compute. reflexivity.
Defined.

Lemma mismatch_disables_template_run :
  fst (containerd.Action (FactoryConfig := unit) test_host
         (test_context "xen" "/boot/vmlinuz" "/boot/initrd.img" test_root)
         test_proc) =
    containerd.Val
      {| containerd.stateDir := "/run/runv-containerd";
         containerd.containerdDir := "/run/runv-containerd";
         containerd.f :=
           factory.NewFromConfigs "/boot/vmlinuz" "/boot/initrd.img" [] |} /\
  In (INFO, "template config is not match the driver, kernel or initrd argument, disable template")
     (glog (containerd.world
        (snd (containerd.Action (FactoryConfig := unit) test_host
                (test_context "xen" "/boot/vmlinuz" "/boot/initrd.img"
                   test_root) test_proc)))).
Proof.
  apply (mismatch_disables_template test_host
           (test_context "xen" "/boot/vmlinuz" "/boot/initrd.img" test_root)
           test_proc test_descriptor).
  - discriminate.
  - reflexivity.
  - reflexivity.
Defined.

Lemma Action_arguments_and_driver_run :
  (fst (containerd.Action (FactoryConfig := unit) test_host
          (test_context "" "" "/boot/initrd.img" "") test_proc) =
     containerd.Exit 1 /\
   calls (containerd.world
     (snd (containerd.Action (FactoryConfig := unit) test_host
             (test_context "" "" "/boot/initrd.img" "") test_proc))) =
     [CallFlagParse ["-v"; "1"; "--log_dir"; "/var/log/runv"]] /\
   containerd.HDriver
     (snd (containerd.Action (FactoryConfig := unit) test_host
             (test_context "" "" "/boot/initrd.img" "") test_proc)) = None) /\
  calls (containerd.world
    (snd (containerd.Action (FactoryConfig := unit) test_host
            (test_context "" "" "" test_root) test_proc))) =
    [CallFlagParse ["-v"; "1"; "--log_dir"; "/var/log/runv"];
     CallOpen "/var/lib/runv/template/config.json";
     CallClose "/var/lib/runv/template/config.json";
     CallProbe "kvm"].
Proof.
  split.
  - apply (proj1 (Action_arguments_and_driver (FactoryConfig := unit)
                    test_host)
             (test_context "" "" "/boot/initrd.img" "") test_proc).
    + reflexivity.
    + left. reflexivity.
  - apply (proj2 (Action_arguments_and_driver (FactoryConfig := unit)
                    test_host)
             (test_context "" "" "" test_root) test_proc test_descriptor).
    + discriminate.
    + reflexivity.
    + reflexivity.
    + reflexivity.
Defined.

(** Two runs of start-up with the descriptor on disk: the arguments agree
    with it, and the kernel argument does not. *)
Example Action_selects_single :
  fst (containerd.Action (FactoryConfig := unit) test_host
         (test_context "" "/boot/vmlinuz" "" test_root) test_proc) =
  containerd.Val
    {| containerd.stateDir := "/run/runv-containerd";
       containerd.containerdDir := "/run/runv-containerd";
       containerd.f :=
         singlefactory.New
           (templatefactory.ofTemplate
              {| templatefactory.s := test_descriptor |}) |}.
Proof. reflexivity. Qed.

(** When the descriptor is dropped for a mismatch, the kernel and initrd
    arguments are not looked at again: empty ones go into the factory. *)
Example Action_mismatch_with_no_kernel :
  fst (containerd.Action (FactoryConfig := unit) test_host
         (test_context "xen" "" "" test_root) test_proc) =
  containerd.Val
    {| containerd.stateDir := "/run/runv-containerd";
       containerd.containerdDir := "/run/runv-containerd";
       containerd.f := factory.NewFromConfigs "" "" [] |}.
Proof. reflexivity. Qed.

Example Action_selects_fresh :
  fst (containerd.Action (FactoryConfig := unit) test_host
         (test_context "" "/boot/bzImage" "" test_root) test_proc) =
  containerd.Val
    {| containerd.stateDir := "/run/runv-containerd";
       containerd.containerdDir := "/run/runv-containerd";
       containerd.f := factory.NewFromConfigs "/boot/bzImage" "" [] |}.
Proof. reflexivity. Qed.

(** * Serving: the namespace goroutine *)

Section NamespaceShare.
Import serving.
Context {Hv FactoryConfig Sv : Type}
  (platform : @Platform Hv FactoryConfig Sv).

Lemma wrap64_in_int (z : Z) : in_int (wrap64 z).
Proof.
  unfold in_int, wrap64.
  pose proof (Z.mod_pos_bound (z + 2 ^ 63) (2 ^ 64) ltac:(lia)). lia.
Qed.

Lemma wrap64_small (z : Z) : in_int z -> wrap64 z = z.
Proof.
  unfold in_int, wrap64. intros Hz.
  rewrite Z.mod_small by lia. lia.
Qed.

Lemma wrap64_add (a b : Z) : wrap64 (wrap64 a + b) = wrap64 (a + b).
Proof.
  unfold wrap64.
  replace ((a + 2 ^ 63) mod 2 ^ 64 - 2 ^ 63 + b + 2 ^ 63)
    with ((a + 2 ^ 63) mod 2 ^ 64 + b) by lia.
  rewrite Z.add_mod_idemp_l by lia.
  do 2 f_equal. lia.
Qed.

Lemma count_events_bounds (test : Event -> bool) (events : list Event) :
  0 <= count_events test events <= Z.of_nat (length events).
Proof.
  induction events as [|e rest IH]; cbn [count_events length]; [lia|].
  destruct (test e); lia.
Qed.

Lemma namespaceShare_from_app (namespace state : string) (es1 es2 : list Event) :
  forall c : Z,
    namespaceShare_from platform namespace state c (es1 ++ es2) =
    let (c1, d1) := namespaceShare_from platform namespace state c es1 in
    let (c2, d2) := namespaceShare_from platform namespace state c1 es2 in
    (c2, d1 ++ d2).
Proof.
  induction es1 as [|e rest IH]; intros c; cbn [app namespaceShare_from].
  - now destruct (namespaceShare_from platform namespace state c es2).
  - destruct (namespaceShare_step platform namespace state c e) as [c0 d0].
    rewrite IH.
    destruct (namespaceShare_from platform namespace state c0 rest) as [c1 d1].
    destruct (namespaceShare_from platform namespace state c1 es2) as [c2 d2].
    now rewrite app_assoc.
Qed.

Lemma step_count (namespace state : string) (c : Z) (e : Event) :
  fst (namespaceShare_step platform namespace state c e) =
  if is_start platform e then wrap64 (c + 1)
  else if is_init_exit platform e then wrap64 (c - 1)
  else c.
Proof.
  unfold namespaceShare_step, is_init_exit, is_start.
  destruct (bool_decide (Type_ e = EventContainerStart platform));
    [reflexivity|].
  cbn [negb andb].
  now destruct (bool_decide (Type_ e = EventExit platform) &&
                bool_decide (PID e = "init")).
Qed.

Lemma namespaceShare_from_count (namespace state : string)
    (events : list Event) :
  forall c : Z,
    in_int c ->
    fst (namespaceShare_from platform namespace state c events) =
    wrap64 (c + balance platform events).
Proof.
  unfold balance.
  induction events as [|e rest IH]; intros c Hc;
    cbn [namespaceShare_from count_events].
  - cbn [fst]. replace (c + (0 - 0)) with c by lia.
    now rewrite wrap64_small.
  - pose proof (step_count namespace state c e) as Hstep.
    destruct (namespaceShare_step platform namespace state c e) as [c0 d0].
    cbn [fst] in Hstep.
    specialize (IH c0).
    destruct (namespaceShare_from platform namespace state c0 rest) as [c1 d1].
    cbn [fst] in *.
    assert (Hc0 : in_int c0).
    { subst c0. destruct (is_start platform e); [apply wrap64_in_int|].
      destruct (is_init_exit platform e); [apply wrap64_in_int|exact Hc]. }
    rewrite (IH Hc0). subst c0.
    unfold is_init_exit.
    destruct (is_start platform e); cbn [negb andb].
    + rewrite wrap64_add. f_equal; lia.
    + destruct (bool_decide (Type_ e = EventExit platform) &&
                bool_decide (PID e = "init")).
      * rewrite wrap64_add. f_equal; lia.
      * f_equal; lia.
Qed.

Lemma balance_bounds (events : list Event) :
  - Z.of_nat (length events) <= balance platform events
    <= Z.of_nat (length events).
Proof.
  unfold balance.
  pose proof (count_events_bounds (is_start platform) events).
  pose proof (count_events_bounds (is_init_exit platform) events).
  lia.
Qed.

(** X9. The counter of [namespaceShare] is the number of containers started
    less the number of init processes exited, as a 64-bit [int]: exactly
    that number as long as fewer than 2^63 events have arrived. *)
Theorem namespaceShare_counts_containers (sv : Sv) (namespace state : string)
    (events : list Event) :
  fst (namespaceShare platform sv namespace state events) =
    wrap64 (balance platform events) /\
  (Z.of_nat (length events) < 2 ^ 63 ->
   fst (namespaceShare platform sv namespace state events) =
     balance platform events).
Proof.
  unfold namespaceShare.
  rewrite namespaceShare_from_count by (unfold in_int; lia).
  split; [reflexivity|]. intros Hlen.
  apply wrap64_small. pose proof (balance_bounds events).
  unfold in_int. cbn [Z.add]. lia.
Qed.

Lemma namespaceShare_from_links (namespace state : string)
    (events : list Event) :
  forall c : Z,
    List.filter is_symlink
      (snd (namespaceShare_from platform namespace state c events)) =
    links platform namespace state events.
Proof.
  induction events as [|e rest IH]; intros c; [reflexivity|].
  cbn [namespaceShare_from links].
  unfold namespaceShare_step at 1. fold (is_start platform e).
  destruct (is_start platform e).
  - specialize (IH (wrap64 (c + 1))).
    destruct (namespaceShare_from platform namespace state (wrap64 (c + 1)) rest).
    cbn [snd app List.filter is_symlink] in *. now rewrite IH.
  - destruct (bool_decide (Type_ e = EventExit platform) &&
              bool_decide (PID e = "init")).
    + specialize (IH (wrap64 (c - 1))).
      destruct (namespaceShare_from platform namespace state (wrap64 (c - 1)) rest).
      cbn [snd] in *.
      destruct (bool_decide (wrap64 (c - 1) = 0)); exact IH.
    + specialize (IH c).
      destruct (namespaceShare_from platform namespace state c rest).
      exact IH.
Qed.

(** X10. [namespaceShare] links the namespace into the state directory of every
    container that starts, in the order the containers start, and makes no
    other link. *)
Theorem namespaceShare_links_every_start (sv : Sv) (namespace state : string)
    (events : list Event) :
  List.filter is_symlink
    (snd (namespaceShare platform sv namespace state events)) =
  links platform namespace state events.
Proof. apply namespaceShare_from_links. Qed.

Lemma namespaceShare_last_event (sv : Sv) (namespace state : string)
    (before : list Event) (e : Event) :
  snd (namespaceShare platform sv namespace state (before ++ [e])) =
  snd (namespaceShare platform sv namespace state before) ++
  (if is_start platform e
   then [DoSymlink namespace (Join3 platform state (ID e) "namespace")]
   else if is_init_exit platform e &&
           bool_decide (wrap64 (balance platform before - 1) = 0)
   then [DoKill 0 SIGQUIT]
   else []).
Proof.
  unfold namespaceShare. rewrite namespaceShare_from_app.
  pose proof (namespaceShare_from_count namespace state before 0
                ltac:(unfold in_int; lia)) as Hcount.
  destruct (namespaceShare_from platform namespace state 0 before) as [c d].
  cbn [fst snd] in *. subst c. cbn [namespaceShare_from].
  assert (Hw : wrap64 (wrap64 (0 + balance platform before) - 1) =
               wrap64 (balance platform before - 1)).
  { transitivity (wrap64 (0 + balance platform before + -1));
      [exact (wrap64_add _ (-1))|f_equal; lia]. }
  unfold namespaceShare_step, is_init_exit. fold (is_start platform e).
  rewrite Hw.
  destruct (is_start platform e); cbn [negb andb snd];
    [now rewrite app_nil_r|].
  destruct (bool_decide (Type_ e = EventExit platform) &&
            bool_decide (PID e = "init")); cbn [andb snd];
    rewrite ?app_nil_r; reflexivity.
Qed.

(** X11. [namespaceShare] sends [SIGQUIT] to the process group when, and only
    when, the init process of the one container still counted exits: after
    the events [before], fewer than 2^63 of them, the next event adds a
    link if it is a start, the signal if it is an init exit and exactly one
    more container has started than init processes have exited, and
    nothing otherwise.  In particular an init exit that arrives when the
    counter is zero or negative sends nothing. *)
Theorem namespaceShare_quits_after_last_container (sv : Sv)
    (namespace state : string) (before : list Event) (e : Event) :
  Z.of_nat (length before) < 2 ^ 63 ->
  snd (namespaceShare platform sv namespace state (before ++ [e])) =
  snd (namespaceShare platform sv namespace state before) ++
  (if is_start platform e
   then [DoSymlink namespace (Join3 platform state (ID e) "namespace")]
   else if is_init_exit platform e &&
           bool_decide (balance platform before = 1)
   then [DoKill 0 SIGQUIT]
   else []).
Proof.
  intros Hlen. rewrite namespaceShare_last_event.
  pose proof (balance_bounds before) as Hb.
  rewrite (wrap64_small (balance platform before - 1))
    by (unfold in_int; lia).
  destruct (is_start platform e); [reflexivity|].
  destruct (is_init_exit platform e); [|reflexivity]. cbn [andb].
  destruct (decide (balance platform before = 1)) as [H1|H1].
  - rewrite !bool_decide_eq_true_2 by lia. reflexivity.
  - rewrite !bool_decide_eq_false_2 by lia. reflexivity.
Qed.

End NamespaceShare.

(** * Serving: the server and the signals *)

(** Runs the serving monad down to functions on states. *)
Ltac run_E :=
  unfold serving.does, serving.sys_call, serving.infof, serving.from_D,
    containerd.lift, containerd.os_Exit, outside, Infof, logf, set_sys,
    serving.eret, serving.ebind, state_after, state_sys;
  cbn [serving.proc serving.effects containerd.world containerd.verbosity
       containerd.InterfaceCount containerd.HDriver
       sys rand_off glog calls fst snd].

Section ServingSteps.
Import serving.
Context {Hv FactoryConfig Sv : Type}
  (platform : @Platform Hv FactoryConfig Sv).

Local Abbreviation State := (@State Hv FactoryConfig Sv).

Lemma ebind_Val {A B : Type} (c : E A) (k : A -> E B) (st st' : State)
    (a : A) :
  c st = (containerd.Val a, st') -> ebind c k st = k a st'.
Proof. intros Hc. unfold ebind. now rewrite Hc. Qed.

Lemma state_after_after (st : State) (y1 y2 : Sys Hv)
    (l1 l2 : list (Severity * string)) (d1 d2 : list Effect) :
  state_after (state_after st y1 l1 d1) y2 l2 d2 =
  state_after st y2 (l1 ++ l2) (d1 ++ d2).
Proof. unfold state_after. cbn. now rewrite !app_assoc. Qed.

Lemma state_after_sys (st : State) (y : Sys Hv)
    (lines : list (Severity * string)) (done : list Effect) :
  state_sys (state_after st y lines done) = y.
Proof. reflexivity. Qed.

Lemma state_after_id (st : State) :
  state_after st (state_sys st) [] [] = st.
Proof.
  destruct st as [[[y r g c] v i h] d]. unfold state_after, state_sys. cbn.
  now rewrite !app_nil_r.
Qed.

Lemma does_run (e : Effect) (st : State) :
  does e st = (containerd.Val tt, state_after st (state_sys st) [] [e]).
Proof.
  rewrite <- (state_after_id st) at 1. unfold does, state_after. cbn.
  now rewrite !app_nil_r.
Qed.

Lemma infof_run (line : string) (st : State) :
  infof line st =
  (containerd.Val tt, state_after st (state_sys st) [(INFO, line)] []).
Proof.
  rewrite <- (state_after_id st) at 1. run_E. now rewrite !app_nil_r.
Qed.

Lemma sys_call_run {A : Type} (f : Sys Hv -> A * Sys Hv) (st : State) :
  sys_call f st =
  (containerd.Val (fst (f (state_sys st))),
   state_after st (snd (f (state_sys st))) [] []).
Proof.
  rewrite <- (state_after_id st) at 1. run_E.
  destruct (f _) as [a y]. cbn. now rewrite !app_nil_r.
Qed.

Lemma ebind_Exit {A B : Type} (c : E A) (k : A -> E B) (st st' : State)
    (code : Z) :
  c st = (containerd.Exit code, st') ->
  ebind c k st = (containerd.Exit code, st').
Proof. intros Hc. unfold ebind. now rewrite Hc. Qed.

Lemma exit_run {A : Type} (code : Z) (st : State) :
  from_D (containerd.os_Exit (A := A) code) st = (containerd.Exit code, st).
Proof. now destruct st. Qed.

End ServingSteps.

(** Normalises a state reached through several steps. *)
Ltac settle :=
  rewrite ?state_after_after, ?state_after_sys;
  cbn [app]; rewrite ?app_nil_r, <- ?app_assoc; cbn [app].

Section Daemon.
Import serving.
Context {Hv FactoryConfig Sv : Type}
  (platform : @Platform Hv FactoryConfig Sv).

Local Abbreviation State := (@State Hv FactoryConfig Sv).

Lemma startServer_run (address : string) (sv : Sv) (st : State) :
  startServer platform address sv st =
  match RemoveAll platform address (state_sys st) with
  | (Some err, y) =>
      (containerd.Val (Err err), state_after st y [] [DoRemoveAll address])
  | (None, y) =>
      match Listen platform defaultListenType address y with
      | (Some err, y') =>
          (containerd.Val (Err err),
           state_after st y' []
             [DoRemoveAll address; DoListen defaultListenType address])
      | (None, y') =>
          (containerd.Val (Ok {| registered := [sv] |}),
           state_after st y' [] (server_up sv address))
      end
  end.
Proof.
  unfold startServer, server_up. run_E.
  destruct (RemoveAll platform address _) as [[err|] y]; cbn.
  - now rewrite app_nil_r.
  - destruct (Listen platform defaultListenType address y) as [[err|] y'];
      cbn; rewrite ?app_nil_r, <- ?app_assoc; reflexivity.
Qed.

Lemma signal_loop_child (server : Server) (rest : list Signal) (st : State) :
  signal_loop platform server (SIGCHLD :: rest) st =
  signal_loop platform server rest
    (state_after st (reaped platform 1 (state_sys st))
       (reap_lines platform 1 (state_sys st)) [DoReap]).
Proof.
  cbn [signal_loop reaped reap_lines].
  erewrite ebind_Val by reflexivity.
  unfold ebind at 1. run_E.
  destruct (Reap platform _) as [[err|] y]; cbn;
    rewrite ?app_nil_r; reflexivity.
Qed.




Lemma signal_loop_stop (server : Server) (ss : Signal) (rest : list Signal)
    (st : State) :
  ss <> SIGCHLD ->
  signal_loop platform server (ss :: rest) st =
  (containerd.Val (Returned None),
   state_after st (state_sys st)
     [(INFO, "stopping containerd after receiving " +:+ Signal_String ss)]
     [DoSleep 3; DoStop server]).
Proof.
  intros Hss. destruct ss; [contradiction| | |];
    cbn [signal_loop]; run_E; now rewrite <- app_assoc.
Qed.

Lemma daemon_run (sv : Sv) (address : string) (signals : list Signal)
    (st : State) :
  daemon platform sv address signals st =
  match RemoveAll platform address (state_sys st) with
  | (Some err, y) =>
      (containerd.Val (Returned (Some err)),
       state_after st y []
         [DoNotify [SIGCHLD; SIGTERM; SIGINT; SIGQUIT]; DoRemoveAll address])
  | (None, y) =>
      match Listen platform defaultListenType address y with
      | (Some err, y') =>
          (containerd.Val (Returned (Some err)),
           state_after st y' []
             [DoNotify [SIGCHLD; SIGTERM; SIGINT; SIGQUIT];
              DoRemoveAll address; DoListen defaultListenType address])
      | (None, y') =>
          signal_loop platform {| registered := [sv] |} signals
            (state_after st y' []
               (DoNotify [SIGCHLD; SIGTERM; SIGINT; SIGQUIT]
                  :: server_up sv address))
      end
  end.
Proof.
  unfold daemon.
  erewrite ebind_Val by apply does_run.
  unfold ebind at 1. rewrite startServer_run, state_after_sys.
  destruct (RemoveAll platform address _) as [[err|] y].
  - unfold eret. now settle.
  - destruct (Listen platform defaultListenType address y) as [[err|] y'].
    + unfold eret. now settle.
    + now settle.
Qed.

(** X12. When the socket path cannot be cleared, or cannot be listened on,
    [daemon] returns that error at once: it has asked for its signals and
    tried the path, and has made no server, started no goroutine and
    handled no signal, whatever signals are pending.  It does not try to
    listen on a path it could not clear. *)
Theorem daemon_returns_setup_error (sv : Sv) (address : string)
    (signals : list Signal) (st : State) :
  (forall (err : error) (y : Sys Hv),
     RemoveAll platform address (state_sys st) = (Some err, y) ->
     daemon platform sv address signals st =
     (containerd.Val (Returned (Some err)),
      state_after st y []
        [DoNotify [SIGCHLD; SIGTERM; SIGINT; SIGQUIT]; DoRemoveAll address]))
  /\
  (forall (err : error) (y y' : Sys Hv),
     RemoveAll platform address (state_sys st) = (None, y) ->
     Listen platform defaultListenType address y = (Some err, y') ->
     daemon platform sv address signals st =
     (containerd.Val (Returned (Some err)),
      state_after st y' []
        [DoNotify [SIGCHLD; SIGTERM; SIGINT; SIGQUIT];
         DoRemoveAll address; DoListen defaultListenType address])).
Proof.
  split.
  - intros err y Hremove. now rewrite daemon_run, Hremove.
  - intros err y y' Hremove Hlisten. now rewrite daemon_run, Hremove, Hlisten.
Qed.



End Daemon.

(** * Serving: from the factory to the end of the process *)

Section Serve.
Import serving.
Context {Hv FactoryConfig Sv : Type}
  (platform : @Platform Hv FactoryConfig Sv).

Local Abbreviation State := (@State Hv FactoryConfig Sv).
Local Abbreviation Started := (@containerd.Started FactoryConfig).

Lemma serve_run (flags : ServeFlags) (started : Started)
    (signals : list Signal) (st : State) :
  serve platform flags started signals st =
  let stateDir := containerd.stateDir started in
  let containerdDir := containerd.containerdDir started in
  let new := DoSupervisorNew stateDir containerdDir (containerd.f started) in
  match supervisor_New platform stateDir containerdDir (containerd.f started)
          (state_sys st) with
  | (Err err, y) => (containerd.Exit 1, state_after st y [(INFO, err)] [new])
  | (Ok sv, y) =>
      let st1 := state_after st y [] (new :: shares flags sv started) in
      match daemon platform sv (listen flags) signals st1 with
      | (containerd.Val Blocked, st2) => (containerd.Val Blocked, st2)
      | (containerd.Val (Returned (Some err)), st2) =>
          (containerd.Exit 1, state_after st2 (state_sys st2) [(INFO, err)] [])
      | (containerd.Val (Returned None), st2) =>
          (containerd.Val (Returned tt),
           if solo_namespaced flags
           then state_after st2
                  (snd (RemoveAll platform containerdDir (state_sys st2))) []
                  [DoRemoveAll containerdDir]
           else st2)
      | (containerd.Exit code, st2) => (containerd.Exit code, st2)
      | (containerd.Panic msg, st2) => (containerd.Panic msg, st2)
      end
  end.
Proof.
  cbv zeta. unfold serve, shares.
  erewrite ebind_Val by apply does_run.
  erewrite ebind_Val by apply sys_call_run.
  rewrite state_after_after, state_after_sys.
  destruct (supervisor_New platform _ _ _ _) as [[sv|err] y]; cbn [fst snd].
  - erewrite ebind_Val by reflexivity.
    assert (Hshare :
      (if solo_namespaced flags
       then does (DoGoNamespaceShare sv (containerd.containerdDir started)
                    (containerd.stateDir started))
       else eret tt) (state_after st y ([] ++ []) ([DoSupervisorNew (containerd.stateDir started) (containerd.containerdDir started) (containerd.f started)] ++ [])) =
      (containerd.Val tt,
       state_after st y []
         (DoSupervisorNew (containerd.stateDir started)
            (containerd.containerdDir started) (containerd.f started)
          :: (if solo_namespaced flags
              then [DoGoNamespaceShare sv (containerd.containerdDir started)
                      (containerd.stateDir started)]
              else [])))).
    { destruct (solo_namespaced flags).
      - rewrite does_run. now settle.
      - unfold eret. now settle. }
    erewrite ebind_Val by exact Hshare.
    unfold ebind at 1.
    destruct (daemon platform sv (listen flags) signals _)
      as [[[[err|]|]|code|msg] st2]; try reflexivity.
    + erewrite ebind_Val by apply infof_run. reflexivity.
    + destruct (solo_namespaced flags).
      * erewrite ebind_Val; [reflexivity|].
        erewrite ebind_Val by apply does_run.
        erewrite ebind_Val by apply sys_call_run.
        unfold eret. now settle.
      * erewrite ebind_Val by reflexivity. reflexivity.
  - erewrite ebind_Exit; [reflexivity|].
    erewrite ebind_Val by apply infof_run. rewrite exit_run. now settle.
Qed.

(** X15. When [supervisor.New] fails, [Action] logs the error and exits with
    status 1: no goroutine is started, no signal asked for and no socket
    path touched. *)
Theorem serve_exits_when_supervisor_fails (flags : ServeFlags)
    (started : Started) (signals : list Signal) (st : State) (err : error)
    (y : Sys Hv) :
  supervisor_New platform (containerd.stateDir started)
    (containerd.containerdDir started) (containerd.f started) (state_sys st) =
    (Err err, y) ->
  serve platform flags started signals st =
  (containerd.Exit 1,
   state_after st y [(INFO, err)]
     [DoSupervisorNew (containerd.stateDir started)
        (containerd.containerdDir started) (containerd.f started)]).
Proof. intros Hnew. rewrite serve_run. cbv zeta. now rewrite Hnew. Qed.


(** X17. When the server cannot be brought up, [Action] logs the error and
    exits with status 1.  In solo-namespaced mode the namespace goroutine
    has been started by then, and the daemon's directory is left in
    place. *)
Theorem serve_exits_when_server_fails (flags : ServeFlags) (started : Started)
    (signals : list Signal) (st : State) (sv : Sv) (y0 : Sys Hv) :
  supervisor_New platform (containerd.stateDir started)
    (containerd.containerdDir started) (containerd.f started) (state_sys st) =
    (Ok sv, y0) ->
  (forall (err : error) (y1 : Sys Hv),
     RemoveAll platform (listen flags) y0 = (Some err, y1) ->
     serve platform flags started signals st =
     (containerd.Exit 1,
      state_after st y1 [(INFO, err)]
        (DoSupervisorNew (containerd.stateDir started)
           (containerd.containerdDir started) (containerd.f started)
         :: shares flags sv started ++
            [DoNotify [SIGCHLD; SIGTERM; SIGINT; SIGQUIT];
             DoRemoveAll (listen flags)]))) /\
  (forall (err : error) (y1 y2 : Sys Hv),
     RemoveAll platform (listen flags) y0 = (None, y1) ->
     Listen platform defaultListenType (listen flags) y1 = (Some err, y2) ->
     serve platform flags started signals st =
     (containerd.Exit 1,
      state_after st y2 [(INFO, err)]
        (DoSupervisorNew (containerd.stateDir started)
           (containerd.containerdDir started) (containerd.f started)
         :: shares flags sv started ++
            [DoNotify [SIGCHLD; SIGTERM; SIGINT; SIGQUIT];
             DoRemoveAll (listen flags);
             DoListen defaultListenType (listen flags)]))).
Proof.
  intros Hnew. split.
  - intros err y1 Hremove.
    rewrite serve_run. cbv zeta. rewrite Hnew.
    rewrite daemon_run, state_after_sys, Hremove. now settle.
  - intros err y1 y2 Hremove Hlisten.
    rewrite serve_run. cbv zeta. rewrite Hnew.
    rewrite daemon_run, state_after_sys, Hremove, Hlisten. now settle.
Qed.

End Serve.

(** * Start-up: the descriptor file, the probe, and what follows *)

Section StartUp.
Import containerd template.
Context {Hv FactoryConfig : Type} (host : Host).

Local Abbreviation Proc := (@Proc Hv).
Local Abbreviation Action := (@containerd.Action Hv FactoryConfig host).

Lemma Action_unreadable_run (context : cli_Context) (p : Proc) :
  global_template context ≠ "" ->
  let path := Join host (global_template context) "config.json" in
  Action context p =
  match config_file host path with
  | OpenFails err =>
      (Exit (-1),
       proc_after p (glog_v context)
         [(ERROR, "open template JSON configuration file failed: "
                  +:+ err +:+ newline)]
         [CallFlagParse (glog_flags context); CallOpen path]
         (InterfaceCount p) (HDriver p))
  | DecodeFails err =>
      (Exit (-1),
       proc_after p (glog_v context)
         [(ERROR, "parse template JSON configuration file failed: "
                  +:+ err +:+ newline)]
         [CallFlagParse (glog_flags context); CallOpen path; CallClose path]
         (InterfaceCount p) (HDriver p))
  | Decodes None =>
      (Panic "invalid memory address or nil pointer dereference",
       proc_after p (glog_v context) []
         [CallFlagParse (glog_flags context); CallOpen path; CallClose path]
         (InterfaceCount p) (HDriver p))
  | Decodes (Some _) => Action context p
  end.
Proof.
  intros Htemplate. cbv zeta.
  destruct (config_file host _) as [err|err|[cfg|]] eqn:Hfile; [| | reflexivity |].
  - unfold containerd.Action.
    erewrite dbind_Val by apply flags_parsed.
    unfold dbind at 1. unfold checkTemplate.
    rewrite (bool_decide_eq_true_2 _ Htemplate), Hfile.
    unfold proc_after, os_Exit, lift, record, Errorf, logf, dbind. cbn.
    now rewrite ?app_nil_r, <- ?app_assoc.
  - unfold containerd.Action.
    erewrite dbind_Val by apply flags_parsed.
    unfold dbind at 1. unfold checkTemplate.
    rewrite (bool_decide_eq_true_2 _ Htemplate), Hfile.
    unfold proc_after, os_Exit, lift, record, Errorf, logf, dbind. cbn.
    now rewrite ?app_nil_r, <- ?app_assoc.
  - unfold containerd.Action.
    erewrite dbind_Val by apply flags_parsed.
    unfold dbind at 1. unfold checkTemplate.
    rewrite (bool_decide_eq_true_2 _ Htemplate), Hfile.
    erewrite dbind_Val by reflexivity.
    erewrite dbind_Val by reflexivity.
    unfold proc_after, or_else, and_then, dbind, deref, dret, panic, lift,
      record.
    cbn [world verbosity InterfaceCount HDriver sys rand_off glog calls].
    destruct (bool_decide (global_driver context ≠ "")) eqn:Hdriver; cbn;
      [now rewrite ?app_nil_r, <- ?app_assoc|].
    destruct (bool_decide (global_kernel context ≠ "")); cbn;
      [now rewrite ?app_nil_r, <- ?app_assoc|].
    destruct (bool_decide (global_initrd context ≠ "")); cbn;
      [now rewrite ?app_nil_r, <- ?app_assoc|].
    apply bool_decide_eq_false_1 in Hdriver.
    rewrite bool_decide_eq_true_2
      by (destruct (decide (global_driver context = ""));
          [assumption|contradiction]).
    cbn. now rewrite ?app_nil_r, <- ?app_assoc.
Qed.

(** X4. A descriptor file that cannot be opened, or cannot be decoded, ends
    start-up with exit status -1 and one line in the error log.  The file
    is closed if, and only if, it had been opened; the driver is not
    probed and the package variables are not assigned. *)
Theorem Action_exits_on_unreadable_descriptor :
  (forall (context : cli_Context) (p : Proc) (err : error),
     global_template context ≠ "" ->
     config_file host (Join host (global_template context) "config.json") =
       OpenFails err ->
     Action context p =
     (Exit (-1),
      proc_after p (glog_v context)
        [(ERROR, "open template JSON configuration file failed: "
                 +:+ err +:+ newline)]
        [CallFlagParse (glog_flags context);
         CallOpen (Join host (global_template context) "config.json")]
        (InterfaceCount p) (HDriver p))) /\
  (forall (context : cli_Context) (p : Proc) (err : error),
     global_template context ≠ "" ->
     config_file host (Join host (global_template context) "config.json") =
       DecodeFails err ->
     Action context p =
     (Exit (-1),
      proc_after p (glog_v context)
        [(ERROR, "parse template JSON configuration file failed: "
                 +:+ err +:+ newline)]
        [CallFlagParse (glog_flags context);
         CallOpen (Join host (global_template context) "config.json");
         CallClose (Join host (global_template context) "config.json")]
        (InterfaceCount p) (HDriver p))).
Proof.
  split; intros context p err Htemplate Hfile;
    rewrite (Action_unreadable_run context p Htemplate); cbv zeta;
    now rewrite Hfile.
Qed.

(** X5. A descriptor file that decodes to a nil descriptor (the JSON value
    [null]) makes start-up panic on a nil pointer, whatever the other
    arguments are: the file has been closed, the driver is not probed and
    no factory is built. *)
Theorem Action_panics_on_null_descriptor (context : cli_Context) (p : Proc) :
  global_template context ≠ "" ->
  config_file host (Join host (global_template context) "config.json") =
    Decodes None ->
  Action context p =
  (Panic "invalid memory address or nil pointer dereference",
   proc_after p (glog_v context) []
     [CallFlagParse (glog_flags context);
      CallOpen (Join host (global_template context) "config.json");
      CallClose (Join host (global_template context) "config.json")]
     (InterfaceCount p) (HDriver p)).
Proof.
  intros Htemplate Hfile.
  rewrite (Action_unreadable_run context p Htemplate). cbv zeta.
  now rewrite Hfile.
Qed.

Lemma disagrees_false (driver kernel initrd : string) (cfg : TemplateVmConfig) :
  disagrees driver kernel initrd cfg = false ->
  (driver = "" \/ driver = Driver cfg) /\
  (kernel = "" \/ kernel = Kernel cfg) /\
  (initrd = "" \/ initrd = Initrd cfg).
Proof.
  unfold disagrees. intros H.
  apply orb_false_elim in H as [H Hi]. apply orb_false_elim in H as [Hd Hk].
  assert (Hone : forall a b : string,
            bool_decide (a ≠ "") && bool_decide (a ≠ b) = false ->
            a = "" \/ a = b).
  { intros a b Hab. destruct (decide (a = "")) as [|Ha]; [now left|right].
    rewrite (bool_decide_eq_true_2 _ Ha) in Hab. cbn in Hab.
    apply bool_decide_eq_false_1 in Hab.
    destruct (decide (a = b)); [assumption|contradiction]. }
  auto.
Qed.

(** X6. Start-up builds the template factory only on the template's own
    terms: whenever the factory handed on is [Single] of some factory, that
    factory is the one [NewFromExisted] makes of the decoded descriptor,
    every driver, kernel or initrd argument that is given equals what the
    descriptor records, and the driver probed for and installed in
    [hypervisor.HDriver] is the descriptor's. *)
Theorem template_factory_runs_on_its_driver (context : cli_Context)
    (p p' : Proc) (started : Started) (b : templatefactory.Factory) :
  Action context p = (Val started, p') ->
  f started = singlefactory.New b ->
  exists (cfg : TemplateVmConfig) (h : HypervisorDriver),
    config_file host (Join host (global_template context) "config.json") =
      Decodes (Some cfg) /\
    b = templatefactory.ofTemplate {| templatefactory.s := cfg |} /\
    (global_driver context = "" \/ global_driver context = Driver cfg) /\
    (global_kernel context = "" \/ global_kernel context = Kernel cfg) /\
    (global_initrd context = "" \/ global_initrd context = Initrd cfg) /\
    Probe host (Driver cfg) = Ok h /\
    HDriver p' = Some h /\
    calls (world p') =
      calls (world p) ++
      [CallFlagParse (glog_flags context);
       CallOpen (Join host (global_template context) "config.json");
       CallClose (Join host (global_template context) "config.json");
       CallProbe (Driver cfg)].
Proof.
  intros Hrun Hsingle.
  destruct (decide (global_template context = "")) as [Hnone|Htemplate].
  - rewrite (Action_no_template host context p Hnone) in Hrun.
    destruct (_ || _); [discriminate|].
    destruct (Probe host _); inversion Hrun; subst. discriminate.
  - destruct (config_file host
                (Join host (global_template context) "config.json"))
      as [err|err|[cfg|]] eqn:Hfile.
    + rewrite (Action_unreadable_run context p Htemplate) in Hrun.
      cbv zeta in Hrun. rewrite Hfile in Hrun. discriminate.
    + rewrite (Action_unreadable_run context p Htemplate) in Hrun.
      cbv zeta in Hrun. rewrite Hfile in Hrun. discriminate.
    + rewrite (Action_descriptor host context p cfg Htemplate Hfile) in Hrun.
      cbv zeta in Hrun.
      destruct (disagrees _ _ _ cfg) eqn:Hagree.
      * destruct (Probe host _); inversion Hrun; subst. discriminate.
      * apply disagrees_false in Hagree as (Hd & Hk & Hi).
        assert (Hprobed :
          (if bool_decide (global_driver context = "")
           then Driver cfg else global_driver context) = Driver cfg).
        { case_bool_decide; [reflexivity|]. now destruct Hd. }
        rewrite Hprobed in Hrun.
        destruct (Probe host (Driver cfg)) as [h|err] eqn:Hprobe;
          inversion Hrun; subst; clear Hrun.
        cbn [f] in Hsingle. inversion Hsingle; subst.
        exists cfg, h. repeat split; auto.
    + rewrite (Action_unreadable_run context p Htemplate) in Hrun.
      cbv zeta in Hrun. rewrite Hfile in Hrun. discriminate.
Qed.

(** X7. The check that kernel and initrd are given is made only when no
    template is asked for.  When a descriptor is supplied and dropped for a
    mismatch, an empty kernel or initrd argument goes into the fresh
    factory as it is, while the same command line without the template
    argument exits with status 1. *)
Theorem mismatch_skips_argument_check (context : cli_Context) (p : Proc)
    (cfg : TemplateVmConfig) (h : HypervisorDriver) :
  global_template context ≠ "" ->
  config_file host (Join host (global_template context) "config.json") =
    Decodes (Some cfg) ->
  disagrees (global_driver context) (global_kernel context)
    (global_initrd context) cfg = true ->
  global_kernel context = "" \/ global_initrd context = "" ->
  Probe host (global_driver context) = Ok h ->
  fst (Action context p) =
    Val {| stateDir := state_dir context;
           containerdDir := daemon_dir context;
           f := factory.NewFromConfigs (global_kernel context)
                  (global_initrd context) [] |} /\
  fst (Action (without_template context) p) = Exit 1.
Proof.
  intros Htemplate Hfile Hdiffer Hempty Hprobe. split.
  - rewrite (Action_descriptor host context p cfg Htemplate Hfile).
    cbv zeta. now rewrite Hdiffer, Hprobe.
  - rewrite (Action_no_template host (without_template context) p eq_refl).
    cbn [without_template global_kernel global_initrd].
    destruct Hempty as [H|H]; rewrite (bool_decide_eq_true_2 _ H);
      [reflexivity|now rewrite orb_true_r].
Qed.

(** X8. When the checks on the arguments pass and the driver is not found,
    start-up exits with status 1, with [hypervisor.HDriver] nil and the
    interface count at zero; the probe's error is the last line logged,
    with or without the debug flag and whatever glog's verbosity was. *)
Theorem Action_exits_when_probe_fails (context : cli_Context) (p : Proc)
    (err : error) :
  passes_checks host context = true ->
  Probe host (probed host context) = Err err ->
  fst (Action context p) = Exit 1 /\
  HDriver (snd (Action context p)) = None /\
  InterfaceCount (snd (Action context p)) = 0 /\
  exists lines : list (Severity * string),
    glog (world (snd (Action context p))) =
    glog (world p) ++ lines ++ [(INFO, err +:+ newline)].
Proof.
  unfold passes_checks, probed, supplied. intros Hchecks Hprobe.
  destruct (decide (global_template context = "")) as [Hnone|Htemplate].
  - rewrite Hnone in Hchecks, Hprobe.
    rewrite (bool_decide_eq_false_2 ("" ≠ ""))
      in Hchecks, Hprobe by (intros H; now apply H).
    rewrite (Action_no_template host context p Hnone).
    apply negb_true_iff in Hchecks. rewrite Hchecks, Hprobe.
    repeat split. now exists [].
  - rewrite (bool_decide_eq_true_2 _ Htemplate) in Hchecks, Hprobe.
    destruct (config_file host _) as [e|e|[cfg|]] eqn:Hfile;
      try (apply bool_decide_eq_true_1 in Hchecks;
           now apply is_Some_None in Hchecks).
    rewrite (Action_descriptor host context p cfg Htemplate Hfile).
    cbv zeta.
    destruct (disagrees _ _ _ cfg); rewrite Hprobe; repeat split.
    + now eexists [_].
    + now exists [].
Qed.

End StartUp.

(** * The whole of [Action] *)

Section WholeAction.
Import serving.
Context {Hv FactoryConfig Sv : Type}
  (host : containerd.Host) (platform : @Platform Hv FactoryConfig Sv).

Local Abbreviation State := (@State Hv FactoryConfig Sv).

Lemma startup_reaches (context : containerd.cli_Context)
    (p : @containerd.Proc Hv) :
  reaches_selection host context = true ->
  fst (containerd.Action host context p) =
  containerd.Val
    {| containerd.stateDir := containerd.state_dir context;
       containerd.containerdDir := daemon_dir context;
       containerd.f := selected (FactoryConfig := FactoryConfig) host context |}.
Proof.
  unfold reaches_selection, selected, probed, supplied. intros Hreach.
  destruct (decide (containerd.global_template context = ""))
    as [Hnone|Htemplate].
  - rewrite (Action_no_template host context p Hnone).
    rewrite Hnone in Hreach |- *.
    rewrite (bool_decide_eq_false_2 ("" ≠ ""))
      in Hreach |- * by (intros H; now apply H).
    destruct (_ || _); [discriminate|].
    destruct (containerd.Probe host _); [reflexivity|discriminate].
  - rewrite (bool_decide_eq_true_2 _ Htemplate) in Hreach |- *.
    destruct (containerd.config_file host _) as [e|e|[cfg|]] eqn:Hfile;
      try (apply andb_true_iff in Hreach as [Hsome _];
           apply bool_decide_eq_true_1 in Hsome;
           now apply is_Some_None in Hsome).
    rewrite (Action_descriptor host context p cfg Htemplate Hfile).
    cbv zeta.
    apply andb_true_iff in Hreach as [_ Hprobe].
    destruct (disagrees _ _ _ cfg);
      destruct (containerd.Probe host _); reflexivity || discriminate.
Qed.

Lemma startup_fails (context : containerd.cli_Context)
    (p : @containerd.Proc Hv) :
  reaches_selection host context = false ->
  forall started : @containerd.Started FactoryConfig,
    fst (containerd.Action host context p) <> containerd.Val started.
Proof.
  unfold reaches_selection, probed, supplied. intros Hreach started.
  destruct (decide (containerd.global_template context = ""))
    as [Hnone|Htemplate].
  - rewrite (Action_no_template host context p Hnone).
    rewrite Hnone in Hreach.
    rewrite (bool_decide_eq_false_2 ("" ≠ ""))
      in Hreach by (intros H; now apply H).
    destruct (_ || _); [discriminate|].
    destruct (containerd.Probe host _); discriminate.
  - rewrite (bool_decide_eq_true_2 _ Htemplate) in Hreach.
    rewrite (Action_unreadable_run host context p Htemplate). cbv zeta.
    destruct (containerd.config_file host _) as [e|e|[cfg|]] eqn:Hfile;
      try discriminate.
    rewrite (Action_descriptor host context p cfg Htemplate Hfile).
    cbv zeta.
    rewrite (bool_decide_eq_true_2 (is_Some (Some cfg)))
      in Hreach by (eexists; reflexivity).
    destruct (disagrees _ _ _ cfg);
      destruct (containerd.Probe host _); discriminate.
Qed.

Lemma signal_loop_grows (server : Server) (signals : list Signal) :
  forall st : State,
    exists more : list Effect,
      effects (snd (signal_loop platform server signals st)) =
      effects st ++ more.
Proof.
  induction signals as [|ss rest IH]; intros st.
  - exists []. cbn. now rewrite app_nil_r.
  - assert (Hcase : ss = SIGCHLD \/ ss <> SIGCHLD)
      by (destruct ss; (now left) || (now right)).
    destruct Hcase as [->|Hss].
    + rewrite signal_loop_child.
      destruct (IH (state_after st (reaped platform 1 (state_sys st))
                      (reap_lines platform 1 (state_sys st)) [DoReap]))
        as [more Hmore].
      rewrite Hmore. cbn [state_after effects].
      eexists. now rewrite <- app_assoc.
    + rewrite (signal_loop_stop platform server ss rest st Hss).
      eexists. reflexivity.
Qed.

Lemma serve_begins (flags : ServeFlags)
    (started : @containerd.Started FactoryConfig) (signals : list Signal)
    (st : State) :
  exists more : list Effect,
    effects (snd (serve platform flags started signals st)) =
    effects st ++
    DoSupervisorNew (containerd.stateDir started)
      (containerd.containerdDir started) (containerd.f started) :: more.
Proof.
  rewrite serve_run. cbv zeta.
  destruct (supervisor_New platform _ _ _ _) as [[sv|err] y].
  - rewrite daemon_run, state_after_sys.
    destruct (RemoveAll platform (listen flags) y) as [[e|] y1].
    + cbn [snd state_after effects]. eexists.
      rewrite <- !app_assoc. cbn [app]. reflexivity.
    + destruct (Listen platform defaultListenType (listen flags) y1)
        as [[e|] y2].
      * cbn [snd state_after effects]. eexists.
        rewrite <- !app_assoc. cbn [app]. reflexivity.
      * destruct (signal_loop_grows {| registered := [sv] |} signals
                    (state_after (state_after st y []
                       (DoSupervisorNew (containerd.stateDir started)
                          (containerd.containerdDir started)
                          (containerd.f started) :: shares flags sv started))
                       y2 []
                       (DoNotify [SIGCHLD; SIGTERM; SIGINT; SIGQUIT]
                          :: server_up sv (listen flags))))
          as [more Hmore].
        destruct (signal_loop platform _ signals _)
          as [[[[e|]|]|code|msg] st2]; cbn [snd] in Hmore |- *;
          try destruct (solo_namespaced flags);
          cbn [state_after effects] in Hmore |- *; rewrite Hmore;
          eexists; rewrite <- !app_assoc; cbn [app]; reflexivity.
  - cbn [snd state_after effects]. eexists. reflexivity.
Qed.

(** X18. [Action] as a whole.  When start-up gets as far as selecting a
    factory, the first thing done after it is [supervisor.New], on the
    state directory, the daemon's directory (the state directory when the
    [containerd-dir] argument is empty) and the factory that was selected.
    When start-up does not get that far, nothing of serving is done: no
    supervisor, no goroutine, no socket, and [Action] does not return. *)
Theorem Action_serves_the_selected_factory (context : containerd.cli_Context)
    (flags : ServeFlags) (signals : list Signal) (st : State) :
  if reaches_selection host context
  then
    exists more : list Effect,
      effects (snd (serving.Action platform host context flags signals st)) =
      effects st ++
      DoSupervisorNew (containerd.state_dir context) (daemon_dir context)
        (selected host context) :: more
  else
    effects (snd (serving.Action platform host context flags signals st)) =
      effects st /\
    forall r : Ran unit,
      fst (serving.Action platform host context flags signals st) <>
      containerd.Val r.
Proof.
  unfold serving.Action, ebind, from_D.
  destruct (reaches_selection host context) eqn:Hreach.
  - pose proof (startup_reaches context (proc st) Hreach) as Hval.
    destruct (containerd.Action host context (proc st)) as [r p].
    cbn [fst] in Hval. subst r.
    exact (serve_begins flags
             {| containerd.stateDir := containerd.state_dir context;
                containerd.containerdDir := daemon_dir context;
                containerd.f := selected host context |}
             signals {| proc := p; effects := effects st |}).
  - pose proof (startup_fails context (proc st) Hreach) as Hnot.
    destruct (containerd.Action host context (proc st)) as [[started|code|msg] p];
      cbn [fst snd effects] in *.
    + now contradiction (Hnot started).
    + split; [reflexivity|discriminate].
    + split; [reflexivity|discriminate].
Qed.

End WholeAction.

(** * The template factory: creation and cloning, call by call *)

Section TemplateFactoryRuns.
Context {Hv : Type} (env : Env Hv).


(** X1. When [CreateTemplateVM] succeeds on the name the loop has picked,
    [New] returns the template factory that holds the descriptor it
    returned, the factory [NewFromExisted] makes of that descriptor, and
    logs nothing. *)
Theorem New_returns_template_factory (templateRoot : string) (cpu mem : Z)
    (kernel initrd : string) (n : nat) (w w1 : World Hv) (vmName : string)
    (s : template.TemplateVmConfig) (y : Sys Hv) :
  templatefactory.pickName env n templateRoot w = (Some vmName, w1) ->
  createTemplateVM env ((templateRoot +:+ "/") +:+ vmName) vmName
    cpu mem kernel initrd "" "" (sys w1) = (Ok s, y) ->
  forall fuel : nat, (n <= fuel)%nat ->
    exists w' : World Hv,
      templatefactory.New env fuel templateRoot cpu mem kernel initrd w =
        (Some (fst (templatefactory.NewFromExisted s w)), w') /\
      glog w' = glog w /\ sys w' = y.
Proof.
  intros Hpick Hcreate fuel Hfuel.
  rewrite New_unfold, (pickName_mono env _ _ _ _ _ _ Hpick Hfuel).
  cbv zeta. rewrite Hcreate.
  eexists; split; [reflexivity|]. cbn [glog sys].
  apply pickName_Some_inv in Hpick as (k & _ & _ & -> & _).
  now rewrite tried_glog.
Qed.


(** X3. [n] calls of [GetBaseVm] on a template factory make [n] calls of the
    clone, each on the factory's descriptor and with the empty machine
    name, and no other call: no boot, no release, whether the clones
    succeed or fail.  Nothing is logged and no random byte is drawn. *)
Theorem GetBaseVms_clones_each_time (t : templatefactory.templateFactory)
    (n : nat) (w : World Hv) :
  let ran := GetBaseVms env (templatefactory.ofTemplate t) n w in
  length (fst ran) = n /\
  calls (snd ran) =
    calls w ++ repeat (CallClone (templatefactory.s t) "") n /\
  glog (snd ran) = glog w /\
  rand_off (snd ran) = rand_off w.
Proof.
  cbv zeta. revert w. induction n as [|n IH]; intros w.
  - cbn. now rewrite app_nil_r.
  - cbn [GetBaseVms repeat]. unfold bind, ret.
    rewrite GetBaseVm_template_unfold.
    destruct (cloneFromTemplate env _ _ _) as [r y].
    specialize (IH {| sys := y; rand_off := rand_off w; glog := glog w;
                      calls := calls w ++ [CallClone (templatefactory.s t) ""] |}).
    destruct (GetBaseVms env (templatefactory.ofTemplate t) n _) as [rs w'].
    cbn [fst snd sys rand_off glog calls length] in *.
    destruct IH as (Hlen & Hcalls & Hlog & Hoff).
    rewrite Hlen, Hcalls, Hlog, Hoff, <- app_assoc. auto.
Qed.

End TemplateFactoryRuns.

(** * More runs on concrete machines *)

Lemma namespaceShare_counts_containers_run :
  fst (serving.namespaceShare test_platform "supervisor" "/run/ns" "/run/state"
         [test_event "start-container" "c1" "init";
          test_event "start-container" "c2" "init";
          test_event "exit" "c1" "init";
          test_event "exit" "c2" "1234"]) = 1.
Proof.
  rewrite (proj2 (namespaceShare_counts_containers test_platform "supervisor"
                    "/run/ns" "/run/state" _)) by reflexivity.
  reflexivity.
Defined.

Lemma namespaceShare_quits_after_last_container_run :
  snd (serving.namespaceShare test_platform "supervisor" "/run/ns" "/run/state"
         ([test_event "start-container" "c1" "init";
           test_event "exit" "c1" "1234"] ++
          [test_event "exit" "c1" "init"])) =
  [serving.DoSymlink "/run/ns" "/run/state/c1/namespace";
   serving.DoKill 0 serving.SIGQUIT].
Proof.
  rewrite namespaceShare_quits_after_last_container by reflexivity.
  reflexivity.
Defined.

Lemma daemon_returns_setup_error_run :
  fst (serving.daemon test_platform "supervisor" "/" [serving.SIGTERM]
         test_state) =
    containerd.Val (serving.Returned (Some "unlinkat /: device or resource busy"))
  /\
  fst (serving.daemon test_platform "supervisor" "" [serving.SIGTERM]
         test_state) =
    containerd.Val (serving.Returned (Some "listen unix: bind: invalid argument")).
Proof.
  split.
  - rewrite (proj1 (daemon_returns_setup_error test_platform "supervisor" "/"
                      [serving.SIGTERM] test_state)
               "unlinkat /: device or resource busy" (state_sys test_state))
      by reflexivity.
    reflexivity.
  - rewrite (proj2 (daemon_returns_setup_error test_platform "supervisor" ""
                      [serving.SIGTERM] test_state)
               "listen unix: bind: invalid argument"
               (state_sys test_state) (state_sys test_state))
      by reflexivity.
    reflexivity.
Defined.



Lemma serve_exits_when_supervisor_fails_run :
  fst (serving.serve test_platform (test_flags true "/run/runv.sock")
         (test_started "") [serving.SIGTERM] test_state) =
  containerd.Exit 1.
Proof.
  rewrite (serve_exits_when_supervisor_fails test_platform
             (test_flags true "/run/runv.sock") (test_started "")
             [serving.SIGTERM] test_state
             "mkdir: no such file or directory" (state_sys test_state))
    by reflexivity.
  reflexivity.
Defined.


Lemma serve_exits_when_server_fails_run :
  let ran :=
    serving.serve test_platform (test_flags true "")
      (test_started "/run/state") [serving.SIGTERM] test_state in
  fst ran = containerd.Exit 1 /\
  serving.effects (snd ran) =
    [serving.DoSupervisorNew "/run/state" "/run/runv-containerd"
       (factory.NewFromConfigs "/boot/vmlinuz" "/boot/initrd.img" []);
     serving.DoGoNamespaceShare "/run/state" "/run/runv-containerd" "/run/state";
     serving.DoNotify [serving.SIGCHLD; serving.SIGTERM; serving.SIGINT;
                       serving.SIGQUIT];
     serving.DoRemoveAll "";
     serving.DoListen "unix" ""].
Proof.
  cbv zeta.
  rewrite (proj2 (serve_exits_when_server_fails test_platform
                    (test_flags true "") (test_started "/run/state")
                    [serving.SIGTERM] test_state "/run/state"
                    (state_sys test_state) eq_refl)
             "listen unix: bind: invalid argument"
             {| files := ∅; hv := tt |} {| files := ∅; hv := tt |})
    by reflexivity.
  split; reflexivity.
Defined.

Lemma Action_exits_on_unreadable_descriptor_run :
  fst (containerd.Action (FactoryConfig := unit) test_host
         (test_context "" "" "" "/nowhere") test_proc) = containerd.Exit (-1)
  /\
  calls (containerd.world
    (snd (containerd.Action (FactoryConfig := unit) garbled_host
            (test_context "" "" "" test_root) test_proc))) =
  [CallFlagParse ["-v"; "1"; "--log_dir"; "/var/log/runv"];
   CallOpen "/var/lib/runv/template/config.json";
   CallClose "/var/lib/runv/template/config.json"].
Proof.
  split.
  - rewrite (proj1 (Action_exits_on_unreadable_descriptor
                      (FactoryConfig := unit) test_host)
               (test_context "" "" "" "/nowhere") test_proc
               "no such file or directory")
      by (reflexivity || discriminate).
    reflexivity.
  - rewrite (proj2 (Action_exits_on_unreadable_descriptor
                      (FactoryConfig := unit) garbled_host)
               (test_context "" "" "" test_root) test_proc
               "invalid character")
      by (reflexivity || discriminate).
    reflexivity.
Defined.

Lemma Action_panics_on_null_descriptor_run :
  fst (containerd.Action (FactoryConfig := unit) null_host
         (test_context "kvm" "/boot/vmlinuz" "/boot/initrd.img" test_root)
         test_proc) =
  containerd.Panic "invalid memory address or nil pointer dereference".
Proof.
  rewrite (Action_panics_on_null_descriptor (FactoryConfig := unit) null_host
             (test_context "kvm" "/boot/vmlinuz" "/boot/initrd.img" test_root)
             test_proc)
    by (reflexivity || discriminate).
  reflexivity.
Defined.

Lemma template_factory_runs_on_its_driver_run :
  exists (cfg : template.TemplateVmConfig) (h : containerd.HypervisorDriver),
    containerd.config_file test_host
      (containerd.Join test_host test_root "config.json") =
      containerd.Decodes (Some cfg) /\
    templatefactory.ofTemplate {| templatefactory.s := test_descriptor |} =
      templatefactory.ofTemplate {| templatefactory.s := cfg |} /\
    ("" = "" \/ "" = template.Driver cfg) /\
    ("/boot/vmlinuz" = "" \/ "/boot/vmlinuz" = template.Kernel cfg) /\
    ("" = "" \/ "" = template.Initrd cfg) /\
    containerd.Probe test_host (template.Driver cfg) = Ok h /\
    Some {| containerd.driverName := "kvm" |} = Some h /\
    [CallFlagParse ["-v"; "1"; "--log_dir"; "/var/log/runv"];
     CallOpen "/var/lib/runv/template/config.json";
     CallClose "/var/lib/runv/template/config.json";
     CallProbe "kvm"] =
    [] ++
    [CallFlagParse ["-v"; "1"; "--log_dir"; "/var/log/runv"];
     CallOpen "/var/lib/runv/template/config.json";
     CallClose "/var/lib/runv/template/config.json";
     CallProbe (template.Driver cfg)].
Proof.
  exact (template_factory_runs_on_its_driver (FactoryConfig := unit) test_host
           (test_context "" "/boot/vmlinuz" "" test_root) test_proc
           (snd (containerd.Action (FactoryConfig := unit) test_host
                   (test_context "" "/boot/vmlinuz" "" test_root) test_proc))
           {| containerd.stateDir := "/run/runv-containerd";
              containerd.containerdDir := "/run/runv-containerd";
              containerd.f :=
                singlefactory.New
                  (templatefactory.ofTemplate
                     {| templatefactory.s := test_descriptor |}) |}
           (templatefactory.ofTemplate
              {| templatefactory.s := test_descriptor |})
           eq_refl eq_refl).
Defined.

Lemma mismatch_skips_argument_check_run :
  fst (containerd.Action (FactoryConfig := unit) test_host
         (test_context "xen" "" "" test_root) test_proc) =
    containerd.Val
      {| containerd.stateDir := "/run/runv-containerd";
         containerd.containerdDir := "/run/runv-containerd";
         containerd.f := factory.NewFromConfigs "" "" [] |} /\
  fst (containerd.Action (FactoryConfig := unit) test_host
         (without_template (test_context "xen" "" "" test_root)) test_proc) =
    containerd.Exit 1.
Proof.
  apply (mismatch_skips_argument_check (FactoryConfig := unit) test_host
           (test_context "xen" "" "" test_root) test_proc test_descriptor
           {| containerd.driverName := "xen" |}).
  - discriminate.
  - reflexivity.
  - reflexivity.
  - left. reflexivity.
  - reflexivity.
Defined.

Lemma Action_exits_when_probe_fails_run :
  fst (containerd.Action (FactoryConfig := unit) test_host
         (test_context "vbox" "/boot/vmlinuz" "/boot/initrd.img" "")
         test_proc) = containerd.Exit 1 /\
  glog (containerd.world
    (snd (containerd.Action (FactoryConfig := unit) test_host
            (test_context "vbox" "/boot/vmlinuz" "/boot/initrd.img" "")
            test_proc))) =
  [(INFO, "unsupported driver" +:+ containerd.newline)].
Proof.
  destruct (Action_exits_when_probe_fails (FactoryConfig := unit) test_host
              (test_context "vbox" "/boot/vmlinuz" "/boot/initrd.img" "")
              test_proc "unsupported driver" eq_refl eq_refl)
    as (Hexit & _).
  split; [exact Hexit|reflexivity].
Defined.

Lemma New_returns_template_factory_run :
  exists w' : World unit,
    templatefactory.New working_env 2 test_root 1 128
      "/boot/vmlinuz" "/boot/initrd.img" (world_of ∅) =
      (Some (templatefactory.ofTemplate
               {| templatefactory.s := test_descriptor |}), w') /\
    glog w' = [] /\
    sys w' = {| files := {["/var/lib/runv/template/template-vm-ABCDEFGHIJ"]};
                hv := tt |}.
Proof.
  refine (New_returns_template_factory working_env test_root 1 128
            "/boot/vmlinuz" "/boot/initrd.img" 1 (world_of ∅)
            (tried working_env test_root 1 (world_of ∅))
            "template-vm-ABCDEFGHIJ" test_descriptor
            {| files := {["/var/lib/runv/template/template-vm-ABCDEFGHIJ"]};
               hv := tt |} _ _ 2%nat _).
  - vm_compute. reflexivity.
  - vm_compute. reflexivity.
  - lia.
Defined.

